(** * opencode-automation: the sequential prompt runner of [src/cli.ts]

    A shallow embedding of the CLI's core: the fault formatter
    [formatErrorDetails], the single-prompt runner [runPrompt] with its
    try / catch / finally session life cycle, the sequential loop
    [runPromptsSequential] with its stop policy, the prompt sources
    ([loadPromptFromFile], [loadPromptsFromDirectory], the arguments),
    and [main] from the parsed options to the exit code.

    The SDK client is an external collaborator.  It is modelled as an
    arbitrary state machine over a state type [SdkState]; every call to
    it is recorded in a trace, so that statements about which calls were
    made (a session deleted, a prompt never attempted) are statements
    about that trace.  Console output is not modelled: it never feeds
    back into control flow. *)

From Stdlib Require Import String Ascii List Bool Arith Lia DecimalString.
From Stdlib Require Import DecimalNat.
From Equations Require Import Equations.
From Equations.Prop Require Import Logic.
Import ListNotations.
Local Open Scope string_scope.
Local Open Scope list_scope.

Set Warnings "-register-all".

(** ** JavaScript values

    Payloads that cross the SDK boundary are typed [unknown] in the
    source.  They are modelled as a tree of JavaScript values.  Numbers
    are kept abstract: the program only tests their truthiness and
    converts them to text. *)

Class JsNumbers : Type := {
  number : Type;
  number_truthy : number -> bool;
  number_toString : number -> string
}.

Section Values.

Context {numbers : JsNumbers}.

Inductive JsValue : Type :=
| JsUndefined
| JsNull
| JsBool (b : bool)
| JsNum (n : number)
| JsStr (s : string)
| JsArr (items : list JsValue)
| JsObj (fields : list (string * JsValue))
| JsError (message : string) (props : list (string * JsValue)).

(** Own-property lookup in an object's property list. *)
Fixpoint js_lookup (k : string) (fields : list (string * JsValue))
  : option JsValue :=
  match fields with
  | [] => None
  | (k', v) :: rest => if String.eqb k k' then Some v else js_lookup k rest
  end.

(** Truthiness, as tested by [if (x)], [x && y] and [!x]. *)
Definition js_truthy (v : JsValue) : bool :=
  match v with
  | JsUndefined | JsNull => false
  | JsBool b => b
  | JsNum n => number_truthy n
  | JsStr s => negb (String.eqb s "")
  | JsArr _ | JsObj _ | JsError _ _ => true
  end.

(** [typeof v === "object"]. *)
Definition js_typeof_object (v : JsValue) : bool :=
  match v with
  | JsNull | JsArr _ | JsObj _ | JsError _ _ => true
  | _ => false
  end.

(** [e instanceof Error]. *)
Definition js_instanceof_Error (v : JsValue) : bool :=
  match v with
  | JsError _ _ => true
  | _ => false
  end.

(** [v.k] for the named properties the program reads ([error], [data],
    [id], [text], [content], [message], [result], [code], [syscall],
    [hostname], [port], [cause]).  None of them is an array index or
    [length], so arrays and primitives answer [undefined].  The program
    never reads a property of [undefined] or [null]. *)
Definition js_get (v : JsValue) (k : string) : JsValue :=
  match v with
  | JsObj fields =>
      match js_lookup k fields with Some x => x | None => JsUndefined end
  | JsError message props =>
      if String.eqb k "message" then JsStr message
      else match js_lookup k props with Some x => x | None => JsUndefined end
  | _ => JsUndefined
  end.

(** ["k" in v] for the same property names, on a value that passed the
    program's [typeof v === "object"] or [instanceof Error] guard. *)
Definition js_in (k : string) (v : JsValue) : bool :=
  match v with
  | JsObj fields =>
      match js_lookup k fields with Some _ => true | None => false end
  | JsError _ props =>
      String.eqb k "message"
      || match js_lookup k props with Some _ => true | None => false end
  | _ => false
  end.

(** [String(v)], also the conversion done by a template literal. *)
Fixpoint js_String (v : JsValue) : string :=
  match v with
  | JsUndefined => "undefined"
  | JsNull => "null"
  | JsBool true => "true"
  | JsBool false => "false"
  | JsNum n => number_toString n
  | JsStr s => s
  | JsArr items =>
      String.concat ","
        (map (fun x => match x with
                       | JsUndefined | JsNull => ""
                       | _ => js_String x
                       end) items)
  | JsObj _ => "[object Object]"
  | JsError message props =>
      let name := match js_lookup "name" props with
                  | Some (JsStr n) => n
                  | _ => "Error"
                  end in
      if String.eqb name "" then message
      else if String.eqb message "" then name
      else name ++ ": " ++ message
  end.

(** [x ?? d]. *)
Definition js_nullish_or (x d : JsValue) : JsValue :=
  match x with
  | JsUndefined | JsNull => d
  | _ => x
  end.

End Values.

(** The rest of the host: [JSON.stringify], a built-in the development
    is parametric in, and the type of the states of the SDK back end. *)
Class Host {numbers : JsNumbers} : Type := {
  JSON_stringify : JsValue -> string;
  SdkState : Type
}.

Section Program.

Context {numbers : JsNumbers} {host : Host}.

(** ** Fault formatting: [formatErrorDetails]

    [extractError] walks the [cause] chain of a thrown value, pushing
    lines onto [parts].  The source returns at once when [depth > 3];
    that cap, not the shape of the value, is what bounds the recursion.
    The verbose branch only writes to the console and is omitted. *)

Definition newline : string := String (ascii_of_nat 10) EmptyString.

Definition push (parts : list string) (line : string) : list string :=
  parts ++ [line].

Equations? extractError (e : JsValue) (depth : nat) (parts : list string)
  : list string by wf (4 - depth) lt :=
  extractError e depth parts with inspect (Nat.ltb 3 depth) := {
    | exist _ true _ => parts
    | exist _ false Hdepth =>
        if js_instanceof_Error e then
          let parts :=
            push parts (if Nat.eqb depth 0 then js_String (js_get e "message")
                        else "Caused by: " ++ js_String (js_get e "message")) in
          let parts :=
            if js_truthy (js_get e "code")
            then push parts ("  Code: " ++ js_String (js_get e "code"))
            else parts in
          let parts :=
            if js_truthy (js_get e "syscall")
            then push parts ("  Syscall: " ++ js_String (js_get e "syscall"))
            else parts in
          let parts :=
            if js_truthy (js_get e "hostname")
            then push parts
                   ("  Host: " ++ js_String (js_get e "hostname") ++ ":"
                    ++ js_String (js_nullish_or (js_get e "port") (JsStr "")))
            else parts in
          if js_in "cause" e && js_truthy (js_get e "cause")
          then extractError (js_get e "cause") (depth + 1) parts
          else parts
        else if negb (match e with JsNull => true | _ => false end)
                && js_typeof_object e
        then push parts (JSON_stringify e)
        else push parts (js_String e) }.
Proof.
  destruct depth as [|[|[|[|d]]]]; cbn in Hdepth |- *; try lia; discriminate.
Qed.

Definition formatErrorDetails (err : JsValue) (verbose : bool) : string :=
  String.concat (newline ++ "  ") (extractError err 0 []).

(** ** Results and options *)

(** [ErrorType]: the three string constants of the source. *)
Inductive ErrorType : Type :=
| ERROR_TYPE_NONE
| ERROR_TYPE_TOOL
| ERROR_TYPE_SDK.

Definition ErrorType_eqb (a b : ErrorType) : bool :=
  match a, b with
  | ERROR_TYPE_NONE, ERROR_TYPE_NONE
  | ERROR_TYPE_TOOL, ERROR_TYPE_TOOL
  | ERROR_TYPE_SDK, ERROR_TYPE_SDK => true
  | _, _ => false
  end.

Definition DEFAULT_ALLOWED_TOOLS : list string :=
  ["Read"; "Write"; "Edit"; "Bash"; "Glob"; "Grep"].

Record RunPromptResult : Type := {
  success : bool;
  errorType : ErrorType;
  resultText : string
}.

Record PromptEntry : Type := {
  name : string;
  content : string
}.

Record RunOptions : Type := {
  verbose : bool
}.

(** [SequentialRunOptions extends RunOptions]. *)
Record SequentialRunOptions : Type := {
  runOptions :> RunOptions;
  stopOnSdkError : bool;
  stopOnToolError : bool;
  allowedTools : option (list string);
  workingDir : option string;
  maxTurns : option number
}.

Record RunSummary : Type := {
  completed : nat;
  toolErrors : nat;
  sdkErrors : nat
}.

(** The [config] object handed to [createOpencode]: each key is either
    set or absent. *)
Record Config : Type := {
  cwd : option string;
  config_allowedTools : option (list string)
}.

(** ** The SDK as a state machine, and the trace of calls

    A call either completes with a value or throws (an awaited promise
    that rejects).  [SdkResponse] is the property list of the response
    object the SDK resolves with. *)

Inductive Completion (A : Type) : Type :=
| Normal (a : A)
| Throw (e : JsValue).
Arguments Normal {A} a.
Arguments Throw {A} e.

Definition SdkResponse : Type := list (string * JsValue).

Inductive SdkCall : Type :=
| CallCreateOpencode (config : Config)
| CallSessionCreate (title : string)
| CallSessionPrompt (id : JsValue) (text : string)
| CallSessionDelete (id : JsValue)
| CallClose.

Record World : Type := {
  sdk : SdkState;
  calls : list SdkCall
}.

Definition SdkOp (A : Type) : Type := SdkState -> Completion A * SdkState.

Record OpencodeClient : Type := {
  session_create : string -> SdkOp SdkResponse;
  session_prompt : JsValue -> string -> SdkOp SdkResponse;
  session_delete : JsValue -> SdkOp SdkResponse
}.

(** What [createOpencode] resolves with: the client, and a [close]
    function when the instance has one. *)
Record Opencode : Type := {
  client : OpencodeClient;
  close : option (SdkOp JsValue)
}.

(** [await op]: run the call on the SDK state and record it. *)
Definition await {A : Type} (call : SdkCall) (op : SdkOp A) (w : World)
  : Completion A * World :=
  let (r, s) := op (sdk w) in
  (r, {| sdk := s; calls := calls w ++ [call] |}).

(** ** One prompt: [runPrompt] *)

(** The result-text extraction of the success path: probe [data] for
    [text], [content], [message], [result]; otherwise serialize. *)
Definition extractResultText (promptResponse : SdkResponse) : string :=
  let data := js_get (JsObj promptResponse) "data" in
  if js_truthy data && js_typeof_object data then
    if js_in "text" data && js_truthy (js_get data "text") then
      js_String (js_get data "text")
    else if js_in "content" data && js_truthy (js_get data "content") then
      js_String (js_get data "content")
    else if js_in "message" data && js_truthy (js_get data "message") then
      js_String (js_get data "message")
    else if js_in "result" data && js_truthy (js_get data "result") then
      js_String (js_get data "result")
    else JSON_stringify data
  else JSON_stringify (JsObj promptResponse).

(** The [try] block.  It yields its completion together with the value
    the local variable [sessionId] holds when the block is left.  The
    verbose branches only log. *)
Definition runPrompt_try (client : OpencodeClient) (prompt : string)
    (options : RunOptions) (w : World)
  : Completion RunPromptResult * JsValue * World :=
  let sessionId := JsUndefined in
  let title := ("Prompt: " ++ substring 0 50 prompt ++ "...")%string in
  match await (CallSessionCreate title) (session_create client title) w with
  | (Throw err, w) => (Throw err, sessionId, w)
  | (Normal sessionResponse, w) =>
      let sessionResponse := JsObj sessionResponse in
      if js_truthy (js_get sessionResponse "error")
         || negb (js_truthy (js_get sessionResponse "data"))
      then
        let errorMsg :=
          if js_truthy (js_get sessionResponse "error")
          then JSON_stringify (js_get sessionResponse "error")
          else "Failed to create session" in
        (Normal {| success := false;
                   errorType := ERROR_TYPE_SDK;
                   resultText := "Session creation failed: " ++ errorMsg |},
         sessionId, w)
      else
        let sessionId := js_get (js_get sessionResponse "data") "id" in
        match await (CallSessionPrompt sessionId prompt)
                    (session_prompt client sessionId prompt) w with
        | (Throw err, w) => (Throw err, sessionId, w)
        | (Normal promptResponse, w) =>
            if js_truthy (js_get (JsObj promptResponse) "error") then
              let errorMessage :=
                JSON_stringify (js_get (JsObj promptResponse) "error") in
              (Normal {| success := false;
                         errorType := ERROR_TYPE_TOOL;
                         resultText := errorMessage |},
               sessionId, w)
            else
              (Normal {| success := true;
                         errorType := ERROR_TYPE_NONE;
                         resultText := extractResultText promptResponse |},
               sessionId, w)
        end
  end.

(** The [catch (err)] block. *)
Definition runPrompt_catch (err : JsValue) (options : RunOptions)
  : RunPromptResult :=
  let errorMessage := formatErrorDetails err (verbose options) in
  {| success := false;
     errorType := ERROR_TYPE_SDK;
     resultText := "SDK Error: " ++ errorMessage |}.

(** The [finally] block: delete the session when [sessionId] is set; the
    inner [try { ... } catch { }] discards a failed deletion. *)
Definition runPrompt_finally (client : OpencodeClient) (sessionId : JsValue)
    (w : World) : Completion unit * World :=
  if js_truthy sessionId then
    match await (CallSessionDelete sessionId)
                (session_delete client sessionId) w with
    | (Normal _, w) => (Normal tt, w)
    | (Throw _, w) => (Normal tt, w)
    end
  else (Normal tt, w).

(** [try { ... } catch (err) { ... } finally { ... }]: the completion of
    the try/catch part stands unless the [finally] block itself throws. *)
Definition runPrompt (client : OpencodeClient) (prompt : string)
    (options : RunOptions) (w : World)
  : Completion RunPromptResult * World :=
  let '(tried, sessionId, w) := runPrompt_try client prompt options w in
  let outcome :=
    match tried with
    | Normal result => Normal result
    | Throw err => Normal (runPrompt_catch err options)
    end in
  let (released, w) := runPrompt_finally client sessionId w in
  match released with
  | Normal _ => (outcome, w)
  | Throw e => (Throw e, w)
  end.

(** ** The sequential loop: [runPromptsSequential] *)

(** How the [for] statement was left: by running off the end of
    [prompts], or by one of the two [break]s. *)
Inductive LoopExit : Type :=
| LoopDone
| LoopBreak.

Definition noCounts : RunSummary :=
  {| completed := 0; toolErrors := 0; sdkErrors := 0 |}.

Definition incCompleted (c : RunSummary) : RunSummary :=
  {| completed := S (completed c);
     toolErrors := toolErrors c;
     sdkErrors := sdkErrors c |}.

Definition incToolErrors (c : RunSummary) : RunSummary :=
  {| completed := completed c;
     toolErrors := S (toolErrors c);
     sdkErrors := sdkErrors c |}.

Definition incSdkErrors (c : RunSummary) : RunSummary :=
  {| completed := completed c;
     toolErrors := toolErrors c;
     sdkErrors := S (sdkErrors c) |}.

(** [for (let i = 0; i < prompts.length; i++) { ... }] over
    [prompts[i]], as a recursion on the prompts still to run.  [counts]
    holds the three mutable counters [completed], [toolErrors],
    [sdkErrors]. *)
Fixpoint promptLoop (client : OpencodeClient) (options : SequentialRunOptions)
    (prompts : list PromptEntry) (counts : RunSummary) (w : World)
  : Completion (LoopExit * RunSummary) * World :=
  match prompts with
  | [] => (Normal (LoopDone, counts), w)
  | entry :: rest =>
      match runPrompt client (content entry)
                      {| verbose := verbose options |} w with
      | (Throw e, w) => (Throw e, w)
      | (Normal result, w) =>
          if ErrorType_eqb (errorType result) ERROR_TYPE_SDK then
            let counts := incSdkErrors counts in
            if stopOnSdkError options
            then (Normal (LoopBreak, counts), w)
            else promptLoop client options rest counts w
          else if ErrorType_eqb (errorType result) ERROR_TYPE_TOOL then
            let counts := incToolErrors counts in
            if stopOnToolError options
            then (Normal (LoopBreak, counts), w)
            else promptLoop client options rest (incCompleted counts) w
          else
            promptLoop client options rest (incCompleted counts) w
      end
  end.

(** The [config] built from the options before the instance is made. *)
Definition buildConfig (options : SequentialRunOptions) : Config :=
  let toolsToUse :=
    match allowedTools options with
    | Some tools => tools
    | None => DEFAULT_ALLOWED_TOOLS
    end in
  {| cwd := match workingDir options with
            | Some dir => if String.eqb dir "" then None else Some dir
            | None => None
            end;
     config_allowedTools :=
       if Nat.ltb 0 (length toolsToUse) then Some toolsToUse else None |}.

(** The [finally] block of the run: close the instance when it has a
    [close] function, discarding a failure. *)
Definition closeOpencode (opencode : Opencode) (w : World)
  : Completion unit * World :=
  match close opencode with
  | Some closeFn =>
      match await CallClose closeFn w with
      | (Normal _, w) => (Normal tt, w)
      | (Throw _, w) => (Normal tt, w)
      end
  | None => (Normal tt, w)
  end.

(** [runPromptsSequential(prompts, options)] of [src/cli.ts].
    [createOpencode] is the SDK entry point the file imports. *)
Definition runPromptsSequential (createOpencode : Config -> SdkOp Opencode)
    (prompts : list PromptEntry) (options : SequentialRunOptions) (w : World)
  : Completion RunSummary * World :=
  let config := buildConfig options in
  match await (CallCreateOpencode config) (createOpencode config) w with
  | (Throw error, w) =>
      (Normal {| completed := 0;
                 toolErrors := 0;
                 sdkErrors := length prompts |}, w)
  | (Normal opencode, w) =>
      let (looped, w) :=
        promptLoop (client opencode) options prompts noCounts w in
      let (closed, w) := closeOpencode opencode w in
      match closed, looped with
      | Throw e, _ => (Throw e, w)
      | Normal _, Throw e => (Throw e, w)
      | Normal _, Normal (_, counts) => (Normal counts, w)
      end
  end.

(** [runPromptsSequential(client, prompts, options)] of the variant of
    the file that connects to a running server: the same loop, on a
    client made by the caller. *)
Definition runPromptsSequential_client (client : OpencodeClient)
    (prompts : list PromptEntry) (options : SequentialRunOptions) (w : World)
  : Completion RunSummary * World :=
  match promptLoop client options prompts noCounts w with
  | (Throw e, w) => (Throw e, w)
  | (Normal (_, counts), w) => (Normal counts, w)
  end.

(** The exit code [main] ends with. *)
Definition exitCode (summary : RunSummary) : nat :=
  if Nat.ltb 0 (sdkErrors summary) then 1
  else if Nat.ltb 0 (toolErrors summary) then 2
  else 0.

(** ** Reading the trace *)

Definition isSessionCreate (c : SdkCall) : bool :=
  match c with
  | CallSessionCreate _ => true
  | _ => false
  end.

(** Prompts attempted: every [runPrompt] starts with exactly one
    [session.create], and nothing else makes that call. *)
Definition attempted (trace : list SdkCall) : nat :=
  length (filter isSessionCreate trace).

End Program.

Arguments Normal {numbers A} a.
Arguments Throw {numbers A} e.

(** ** Prompt sources and [main]

    [node:fs], [node:path], [natural-orderby], [String.prototype.trim]
    and [parseInt] are the host's; the development is parametric in
    them.  The file system is read as it stands while [main] collects
    its prompts: each call is a function of its path that returns or
    throws. *)

Record Stats : Type := {
  isFile : bool;
  isDirectory : bool
}.

Class NodeHost {numbers : JsNumbers} : Type := {
  statSync : string -> Completion Stats;
  readdirSync : string -> Completion (list string);
  readFileSync : string -> Completion string;
  resolve : list string -> string;
  basename : string -> string;
  orderBy : list string -> list string;
  trim : string -> string;
  parseInt : string -> number
}.

(** An optional key of the parsed options: not there, there and
    [undefined], or there with a value. *)
Inductive OptionalKey (A : Type) : Type :=
| KeyAbsent
| KeyUndefined
| KeyValue (a : A).
Arguments KeyAbsent {A}.
Arguments KeyUndefined {A}.
Arguments KeyValue {A} a.

(** The object [program.opts()] returns. *)
Module Opts.

Record t : Type := {
  dir : option string;
  file : option string;
  stopOnToolError : bool;
  stopOnSdkError : bool;
  tools : OptionalKey string;
  workingDir : option string;
  maxTurns : option string;
  verbose : bool
}.

End Opts.

Section Sources.

Context {numbers : JsNumbers} {host : Host} {node : NodeHost}.

(** An optional string that passes [if (x)]. *)
Definition truthyString (x : option string) : option string :=
  match x with
  | Some s => if String.eqb s "" then None else Some s
  | None => None
  end.

(** The decimal text of an index, as a template literal prints it. *)
Definition decimal (n : nat) : string :=
  NilZero.string_of_uint (Nat.to_uint n).

(** [s.split(",")]. *)
Fixpoint splitComma (s : string) : list string :=
  match s with
  | EmptyString => [EmptyString]
  | String c rest =>
      if Ascii.eqb c ","%char then EmptyString :: splitComma rest
      else match splitComma rest with
           | piece :: pieces => String c piece :: pieces
           | [] => [String c EmptyString]
           end
  end.

Definition loadPromptFromFile (filepath : string) : Completion string :=
  match readFileSync filepath with
  | Normal text => Normal (trim text)
  | Throw e => Throw e
  end.

(** [entries.filter(entry => statSync(resolve(dirpath, entry)).isFile())]:
    the entries are visited in order, and a throwing [statSync] ends the
    filter. *)
Fixpoint filterFiles (dirpath : string) (entries : list string)
  : Completion (list string) :=
  match entries with
  | [] => Normal []
  | entry :: rest =>
      match statSync (resolve [dirpath; entry]) with
      | Throw e => Throw e
      | Normal stat =>
          match filterFiles dirpath rest with
          | Throw e => Throw e
          | Normal files =>
              Normal (if isFile stat then entry :: files else files)
          end
      end
  end.

(** [for (const file of sortedFiles) { ... }], pushing onto [prompts]. *)
Fixpoint loadFiles (dirpath : string) (sortedFiles : list string)
    (prompts : list PromptEntry) : Completion (list PromptEntry) :=
  match sortedFiles with
  | [] => Normal prompts
  | file :: rest =>
      match loadPromptFromFile (resolve [dirpath; file]) with
      | Throw e => Throw e
      | Normal text =>
          loadFiles dirpath rest
            (if String.eqb text "" then prompts
             else prompts ++ [{| name := file; content := text |}])
      end
  end.

Definition loadPromptsFromDirectory (dirpath : string)
  : Completion (list PromptEntry) :=
  match readdirSync dirpath with
  | Throw e => Throw e
  | Normal entries =>
      match filterFiles dirpath entries with
      | Throw e => Throw e
      | Normal files =>
          let sortedFiles := orderBy files in
          loadFiles dirpath sortedFiles []
      end
  end.

(** How the process ends: [process.exit(code)], or inside
    [program.help()], which does not return. *)
Inductive ProcessEnd : Type :=
| Exited (code : nat)
| HelpShown.

(** What the prompt collection of [main] comes to: the prompts, the end
    of the process, or a fault that escapes [main]. *)
Inductive Collected : Type :=
| Collect (prompts : list PromptEntry)
| Ended (e : ProcessEnd)
| Uncaught (err : JsValue).

(** [args.map((p, i) => ({ name: `prompt-${i + 1}`, content: p }))],
    from index [i]. *)
Fixpoint argPrompts (i : nat) (args : list string) : list PromptEntry :=
  match args with
  | [] => []
  | p :: rest =>
      {| name := "prompt-" ++ decimal (i + 1); content := p |}
      :: argPrompts (S i) rest
  end.

(** The "Collect prompts" part of [main]. *)
Definition collectPrompts (opts : Opts.t) (args : list string) : Collected :=
  match truthyString (Opts.dir opts) with
  | Some dir =>
      let dirPath := resolve [dir] in
      match statSync dirPath with
      | Throw _ => Ended (Exited 1)
      | Normal stat =>
          if negb (isDirectory stat) then Ended (Exited 1)
          else match loadPromptsFromDirectory dirPath with
               | Throw e => Uncaught e
               | Normal prompts => Collect prompts
               end
      end
  | None =>
      match truthyString (Opts.file opts) with
      | Some file =>
          let filePath := resolve [file] in
          match statSync filePath with
          | Throw _ => Ended (Exited 1)
          | Normal _ =>
              match loadPromptFromFile filePath with
              | Throw e => Uncaught e
              | Normal text =>
                  Collect (if String.eqb text "" then []
                           else [{| name := basename filePath;
                                    content := text |}])
              end
          end
      | None =>
          if Nat.ltb 0 (length args) then Collect (argPrompts 0 args)
          else Ended HelpShown
      end
  end.

(** The options [main] hands to [runPromptsSequential]. *)
Definition runOptionsOf (opts : Opts.t) : SequentialRunOptions :=
  let stopOnSdkError := negb (Bool.eqb (Opts.stopOnSdkError opts) false) in
  let stopOnToolError := Opts.stopOnToolError opts in
  let allowedTools :=
    match Opts.tools opts with
    | KeyUndefined => Some []
    | KeyValue tools =>
        if String.eqb tools "" then None
        else Some (map trim (splitComma tools))
    | KeyAbsent => None
    end in
  let maxTurns :=
    match truthyString (Opts.maxTurns opts) with
    | Some turns => Some (parseInt turns)
    | None => None
    end in
  {| runOptions := {| verbose := Opts.verbose opts |};
     stopOnSdkError := stopOnSdkError;
     stopOnToolError := stopOnToolError;
     allowedTools := allowedTools;
     workingDir := Opts.workingDir opts;
     maxTurns := maxTurns |}.

(** [main], from the parsed options and arguments on.  A fault that
    escapes it is caught by [main().catch], which exits with 1. *)
Definition main (createOpencode : Config -> SdkOp Opencode) (opts : Opts.t)
    (args : list string) (w : World) : ProcessEnd * World :=
  match collectPrompts opts args with
  | Ended e => (e, w)
  | Uncaught _ => (Exited 1, w)
  | Collect prompts =>
      if Nat.eqb (length prompts) 0 then (Exited 1, w)
      else
        match runPromptsSequential createOpencode prompts
                                   (runOptionsOf opts) w with
        | (Throw _, w) => (Exited 1, w)
        | (Normal summary, w) => (Exited (exitCode summary), w)
        end
  end.

End Sources.

(** ** Reference descriptions

    The vocabulary of the statements below: the result-text probe and
    the lines of a cause chain as the documentation words them, against
    which the source's code is compared, and names for the pieces of a
    run the statements speak about. *)

Section Reference.

Context {numbers : JsNumbers} {host : Host}.

(** The response fields probed for a result text, in priority order. *)
Definition resultFields : list string :=
  ["text"; "content"; "message"; "result"].

(** A field counts when it is there and holds a truthy value. *)
Definition nonEmptyField (data : JsValue) (k : string) : bool :=
  js_in k data && js_truthy (js_get data k).

Definition firstNonEmptyField (data : JsValue) : option string :=
  find (nonEmptyField data) resultFields.

(** One level of a fault's cause chain: an [Error] with its message and
    its own properties other than [cause]. *)
Record FaultLevel : Type := {
  level_message : string;
  level_props : list (string * JsValue)
}.

Definition levelError (l : FaultLevel) : JsValue :=
  JsError (level_message l) (level_props l).

(** The [Error] whose levels, outermost first, are [top :: causes]. *)
Fixpoint causeChain (top : FaultLevel) (causes : list FaultLevel) : JsValue :=
  match causes with
  | [] => levelError top
  | c :: rest =>
      JsError (level_message top)
              (level_props top ++ [("cause", causeChain c rest)])
  end.

(** A diagnostic line appears exactly when its field is truthy. *)
Definition diagnostic (field : JsValue) (line : string) : list string :=
  if js_truthy field then [line] else [].

(** The lines one level contributes at a given depth. *)
Definition levelLines (depth : nat) (l : FaultLevel) : list string :=
  let e := levelError l in
  [if Nat.eqb depth 0 then level_message l
   else ("Caused by: " ++ level_message l)%string]
  ++ diagnostic (js_get e "code") ("  Code: " ++ js_String (js_get e "code"))
  ++ diagnostic (js_get e "syscall")
       ("  Syscall: " ++ js_String (js_get e "syscall"))
  ++ diagnostic (js_get e "hostname")
       ("  Host: " ++ js_String (js_get e "hostname") ++ ":"
        ++ js_String (js_nullish_or (js_get e "port") (JsStr ""))).

(** The flattened, ordered list of lines of a chain. *)
Fixpoint chainLines (depth : nat) (levels : list FaultLevel) : list string :=
  match levels with
  | [] => []
  | l :: rest => levelLines depth l ++ chainLines (S depth) rest
  end.

Definition noCauseProp (l : FaultLevel) : Prop :=
  js_lookup "cause" (level_props l) = None.

(** The title [runPrompt] gives the session of a prompt. *)
Definition sessionTitle (prompt : string) : string :=
  "Prompt: " ++ substring 0 50 prompt ++ "...".

(** A session-creation reply that opens a session: no error payload,
    and data. *)
Definition sessionOpened (sessionResponse : SdkResponse) : Prop :=
  js_truthy (js_get (JsObj sessionResponse) "error") = false
  /\ js_truthy (js_get (JsObj sessionResponse) "data") = true.

(** The id stored in [sessionId] from such a reply. *)
Definition sessionIdOf (sessionResponse : SdkResponse) : JsValue :=
  js_get (js_get (JsObj sessionResponse) "data") "id".

(** [client] with its [session.delete] replaced. *)
Definition withDelete (client : OpencodeClient)
    (delete : JsValue -> SdkOp SdkResponse) : OpencodeClient :=
  {| session_create := session_create client;
     session_prompt := session_prompt client;
     session_delete := delete |}.

(** The world right after [createOpencode] resolved. *)
Definition created (options : SequentialRunOptions) (w : World)
    (s : SdkState) : World :=
  {| sdk := s; calls := calls w ++ [CallCreateOpencode (buildConfig options)] |}.

(** The weight of the counters that grows by one per attempted prompt:
    a tool error is counted once, in [toolErrors] when it stops the run
    and in [completed] when it does not. *)
Definition attemptsCounted (options : SequentialRunOptions)
    (counts : RunSummary) : nat :=
  completed counts + sdkErrors counts
  + (if stopOnToolError options then toolErrors counts else 0).

(** The calls one [runPrompt] makes for [prompt]: the session request
    alone (no session came of it); or the request, the prompt sent to the
    id the reply gave, and the deletion of that id; or, when that id is
    falsy, the request and the prompt with no deletion. *)
Inductive sessionBlock (prompt : string) : list SdkCall -> Prop :=
| BlockRefused :
    sessionBlock prompt [CallSessionCreate (sessionTitle prompt)]
| BlockServed (id : JsValue) :
    js_truthy id = true ->
    sessionBlock prompt [CallSessionCreate (sessionTitle prompt);
                         CallSessionPrompt id prompt;
                         CallSessionDelete id]
| BlockUnnamed (id : JsValue) :
    js_truthy id = false ->
    sessionBlock prompt [CallSessionCreate (sessionTitle prompt);
                         CallSessionPrompt id prompt].

(** One block per prompt, in the order of the prompts. *)
Inductive sessionBlocks : list PromptEntry -> list SdkCall -> Prop :=
| BlocksNil : sessionBlocks [] []
| BlocksCons (p : PromptEntry) (ps : list PromptEntry)
             (block trace : list SdkCall) :
    sessionBlock (content p) block ->
    sessionBlocks ps trace ->
    sessionBlocks (p :: ps) (block ++ trace).

(** The line pushed for a thrown value that is not an [Error]. *)
Definition faultText (v : JsValue) : string :=
  if negb (match v with JsNull => true | _ => false end) && js_typeof_object v
  then JSON_stringify v
  else js_String v.

(** The chain [top :: causes] whose innermost level has [innermost] as
    its [cause] property. *)
Fixpoint causeChainTo (innermost : JsValue) (top : FaultLevel)
    (causes : list FaultLevel) : JsValue :=
  match causes with
  | [] => JsError (level_message top)
                  (level_props top ++ [("cause", innermost)])
  | c :: rest =>
      JsError (level_message top)
              (level_props top ++ [("cause", causeChainTo innermost c rest)])
  end.

(** The summary of a run in which every prompt completed. *)
Definition allCompleted (prompts : list PromptEntry) : RunSummary :=
  {| completed := length prompts; toolErrors := 0; sdkErrors := 0 |}.

End Reference.

Section SourcesReference.

Context {numbers : JsNumbers} {host : Host} {node : NodeHost}.

(** An entry of [dirpath] that [statSync] reports as a regular file. *)
Definition isRegularFile (dirpath entry : string) : bool :=
  match statSync (resolve [dirpath; entry]) with
  | Normal stat => isFile stat
  | Throw _ => false
  end.

(** A file of [dirpath] whose trimmed text is not empty. *)
Definition hasPrompt (dirpath file : string) : bool :=
  match loadPromptFromFile (resolve [dirpath; file]) with
  | Normal text => negb (String.eqb text "")
  | Throw _ => false
  end.

(** The names [main] gives to [n] prompts passed as arguments. *)
Definition argNames (n : nat) : list string :=
  map (fun i => ("prompt-" ++ decimal (S i))%string) (seq 0 n).

End SourcesReference.

(** ** A concrete host and SDK

    Numbers are naturals printed in decimal, the serializer is a compact
    JSON printer, and the SDK is a small scripted server whose state
    counts the sessions it has opened. *)

Module Sample.

#[export] Instance numbers : JsNumbers := {|
  number := nat;
  number_truthy := fun n => negb (Nat.eqb n 0);
  number_toString := fun n => NilZero.string_of_uint (Nat.to_uint n)
|}.

Definition quote : string := String (ascii_of_nat 34) EmptyString.

Definition commaJoin (items : list string) : string := String.concat "," items.

Fixpoint stringify (v : JsValue) : string :=
  match v with
  | JsUndefined | JsNull => "null"
  | JsBool true => "true"
  | JsBool false => "false"
  | JsNum n => number_toString n
  | JsStr s => quote ++ s ++ quote
  | JsArr items => "[" ++ commaJoin (map stringify items) ++ "]"
  | JsObj fields | JsError _ fields =>
      "{" ++ commaJoin
               (map (fun kv : string * JsValue =>
                       (quote ++ fst kv ++ quote ++ ":" ++ stringify (snd kv))%string)
                    fields) ++ "}"
  end.

#[export] Instance host : Host := {|
  JSON_stringify := stringify;
  SdkState := nat
|}.

Definition refused : JsValue :=
  JsError "fetch failed"
    [("cause",
      JsError "getaddrinfo ENOTFOUND opencode.local"
        [("code", JsStr "ENOTFOUND");
         ("syscall", JsStr "getaddrinfo");
         ("hostname", JsStr "opencode.local")])].

(** The replies of the scripted server. *)
Definition sessionReply (n : nat) : SdkResponse :=
  [("data", JsObj [("id", JsStr ("ses_" ++ number_toString n))])].

Definition quotaReply : SdkResponse :=
  [("error", JsObj [("name", JsStr "QuotaExceeded")])].

Definition toolFailureReply : SdkResponse :=
  [("error", JsObj [("name", JsStr "CommandFailed"); ("exitCode", JsNum 1)])].

Definition answerReply : SdkResponse :=
  [("data", JsObj [("text", JsStr "done")])].

(** The scripted server.  A session gets the next number as its id.  The
    prompt text decides the reply: a tool failure, a transport fault, or
    a text answer.  Deleting fails when [deleteFails] is set. *)
Definition scripted (deleteFails : bool) : OpencodeClient := {|
  session_create := fun title opened =>
    if String.eqb title "Prompt: no quota..." then (Normal quotaReply, opened)
    else if String.eqb title "Prompt: offline..." then (Throw refused, opened)
    else (Normal (sessionReply (S opened)), S opened);
  session_prompt := fun id text opened =>
    if String.eqb text "run the failing tests" then
      (Normal toolFailureReply, opened)
    else if String.eqb text "crash" then (Throw refused, opened)
    else (Normal answerReply, opened);
  session_delete := fun id opened =>
    if deleteFails then (Throw (JsError "socket hang up" []), opened)
    else (Normal [("data", JsBool true)], opened)
|}.

Definition createScripted (config : Config) : SdkOp Opencode :=
  fun opened =>
    (Normal {| client := scripted false; close := None |}, opened).

Definition createRefused (config : Config) : SdkOp Opencode :=
  fun opened => (Throw refused, opened).

Definition start : World := {| sdk := 0; calls := [] |}.

Definition prompt (text : string) : PromptEntry :=
  {| name := text; content := text |}.

(** The policy [main] passes when no flag is given. *)
Definition defaults : SequentialRunOptions := {|
  runOptions := {| verbose := false |};
  stopOnSdkError := true;
  stopOnToolError := false;
  allowedTools := None;
  workingDir := None;
  maxTurns := None
|}.

(** The instance [createScripted] resolves with. *)
Definition scriptedInstance : Opencode :=
  {| client := scripted false; close := None |}.

(** A chain of six levels; only the first four are reported. *)
Definition deepFault : list FaultLevel :=
  [ {| level_message := "connect failed";
       level_props := [("code", JsStr "ECONNREFUSED");
                       ("syscall", JsStr "connect")] |};
    {| level_message := "lookup failed";
       level_props := [("hostname", JsStr "opencode.local");
                       ("port", JsNum 4096)] |};
    {| level_message := "socket closed"; level_props := [] |};
    {| level_message := "fourth"; level_props := [] |};
    {| level_message := "fifth"; level_props := [] |} ].

Definition topFault : FaultLevel :=
  {| level_message := "fetch failed"; level_props := [] |}.

(** A deletion that always fails. *)
Definition failingDelete : JsValue -> SdkOp SdkResponse :=
  session_delete (scripted true).

(** The policy with neither stop flag set. *)
Definition keepGoing : SequentialRunOptions := {|
  runOptions := {| verbose := false |};
  stopOnSdkError := false;
  stopOnToolError := false;
  allowedTools := None;
  workingDir := None;
  maxTurns := None
|}.

(** An instance whose [close] throws. *)
Definition createClosable (config : Config) : SdkOp Opencode :=
  fun opened =>
    (Normal {| client := scripted false;
               close := Some (fun s => (Throw (JsError "already closed" []), s)) |},
     opened).

Definition createClosableQuietly (config : Config) : SdkOp Opencode :=
  fun opened =>
    (Normal {| client := scripted false;
               close := Some (fun s => (Normal JsUndefined, s)) |},
     opened).

(** A small file system.  [/work/prompts] holds three tasks, a blank
    file and a sub-directory; [/work/broken] holds an entry that cannot
    be read. *)
Definition isSpace (c : ascii) : bool :=
  let n := nat_of_ascii c in
  Nat.eqb n 32 || (Nat.leb 9 n && Nat.leb n 13).

Fixpoint trimStart (s : string) : string :=
  match s with
  | EmptyString => EmptyString
  | String c rest => if isSpace c then trimStart rest else s
  end.

Fixpoint trimEnd (s : string) : string :=
  match s with
  | EmptyString => EmptyString
  | String c rest =>
      match trimEnd rest with
      | EmptyString => if isSpace c then EmptyString else String c EmptyString
      | kept => String c kept
      end
  end.

Fixpoint lastSegment (acc s : string) : string :=
  match s with
  | EmptyString => acc
  | String c rest =>
      if Ascii.eqb c "/"%char then lastSegment EmptyString rest
      else lastSegment (acc ++ String c EmptyString)%string rest
  end.

(** Shorter names first, then by character: the natural order on names
    that differ in a final number without leading zeros. *)
Definition shortlex (a b : string) : bool :=
  if Nat.ltb (String.length a) (String.length b) then true
  else if Nat.ltb (String.length b) (String.length a) then false
  else String.leb a b.

Fixpoint insertSorted (x : string) (sorted : list string) : list string :=
  match sorted with
  | [] => [x]
  | y :: rest => if shortlex x y then x :: sorted else y :: insertSorted x rest
  end.

Definition noEntry : JsValue :=
  JsError "ENOENT: no such file or directory" [("code", JsStr "ENOENT")].

Definition newlineChar : string := String (ascii_of_nat 10) EmptyString.

Definition files : list (string * string) :=
  [("/work/prompts/task-2", ("second" ++ newlineChar)%string);
   ("/work/prompts/task-9", "  ninth");
   ("/work/prompts/task-10", "tenth");
   ("/work/prompts/blank", ("  " ++ newlineChar)%string);
   ("/work/note.txt", " ");
   ("/work/broken/ok", "fine")].

Definition directories : list (string * list string) :=
  [("/work/prompts", ["task-10"; "archive"; "blank"; "task-2"; "task-9"]);
   ("/work/prompts/archive", []);
   ("/work/broken", ["ok"; "dangling"])].

Fixpoint lookupPath {A : Type} (path : string) (table : list (string * A))
  : option A :=
  match table with
  | [] => None
  | (p, a) :: rest => if String.eqb path p then Some a else lookupPath path rest
  end.

#[export] Instance node : NodeHost := {|
  statSync := fun path =>
    match lookupPath path files, lookupPath path directories with
    | Some _, _ => Normal {| isFile := true; isDirectory := false |}
    | None, Some _ => Normal {| isFile := false; isDirectory := true |}
    | None, None => Throw noEntry
    end;
  readdirSync := fun path =>
    match lookupPath path directories with
    | Some entries => Normal entries
    | None => Throw noEntry
    end;
  readFileSync := fun path =>
    match lookupPath path files with
    | Some text => Normal text
    | None => Throw noEntry
    end;
  resolve := fun segments => String.concat "/" segments;
  basename := lastSegment EmptyString;
  orderBy := fun names => fold_right insertSorted [] names;
  trim := fun s => trimEnd (trimStart s);
  parseInt := fun s =>
    match NilZero.uint_of_string s with
    | Some d => Nat.of_uint d
    | None => 0
    end
|}.

(** Parsed options naming a source and nothing else. *)
Definition options (dir file : option string) : Opts.t := {|
  Opts.dir := dir;
  Opts.file := file;
  Opts.stopOnToolError := false;
  Opts.stopOnSdkError := true;
  Opts.tools := KeyAbsent;
  Opts.workingDir := None;
  Opts.maxTurns := None;
  Opts.verbose := false
|}.

(** A thrown value that is a plain object. *)
Definition badGateway : JsValue := JsObj [("status", JsNum 502)].

End Sample.

(** * Properties *)

Section Properties.

Context {numbers : JsNumbers} {host : Host}.

(** ** The fault formatter *)

Lemma js_lookup_app (k c : string) (v : JsValue) (ps : list (string * JsValue)) :
  js_lookup k (ps ++ [(c, v)]) =
  match js_lookup k ps with
  | Some x => Some x
  | None => if String.eqb k c then Some v else None
  end.
Proof.
  induction ps as [|[k' v'] ps IH]; simpl.
  - reflexivity.
  - destruct (String.eqb k k'); [reflexivity | exact IH].
Qed.

Lemma js_get_beside_cause (m k : string) (c : JsValue)
    (ps : list (string * JsValue)) :
  String.eqb k "cause" = false ->
  js_get (JsError m (ps ++ [("cause", c)])) k = js_get (JsError m ps) k.
Proof.
  intros Hk. unfold js_get. rewrite js_lookup_app, Hk.
  destruct (js_lookup k ps); reflexivity.
Qed.

Lemma levelLines_beside_cause (depth : nat) (m : string) (c : JsValue)
    (ps : list (string * JsValue)) :
  levelLines depth {| level_message := m;
                      level_props := ps ++ [("cause", c)] |} =
  levelLines depth {| level_message := m; level_props := ps |}.
Proof.
  unfold levelLines, levelError; simpl level_message; simpl level_props.
  rewrite !(js_get_beside_cause m _ c ps) by reflexivity.
  reflexivity.
Qed.

(** Beyond the cap nothing is pushed. *)
Lemma extractError_capped (e : JsValue) (depth : nat) (parts : list string) :
  3 < depth -> extractError e depth parts = parts.
Proof.
  intros Hd. simp extractError.
  destruct (Logic.inspect (Nat.ltb 3 depth)) as [b Hb].
  destruct b; simp extractError.
  - reflexivity.
  - apply Nat.ltb_ge in Hb. lia.
Qed.

(** One visited level of an [Error]: its lines, then its cause. *)
Lemma extractError_Error (m : string) (ps : list (string * JsValue))
    (depth : nat) (parts : list string) :
  depth <= 3 ->
  extractError (JsError m ps) depth parts =
  let e := JsError m ps in
  let parts' :=
    parts ++ levelLines depth {| level_message := m; level_props := ps |} in
  if js_in "cause" e && js_truthy (js_get e "cause")
  then extractError (js_get e "cause") (depth + 1) parts'
  else parts'.
Proof.
  intros Hd. simp extractError.
  destruct (Logic.inspect (Nat.ltb 3 depth)) as [b Hb].
  destruct b; simp extractError.
  - apply Nat.ltb_lt in Hb. lia.
  - cbv zeta. unfold levelLines, levelError, diagnostic, push.
    simpl level_message; simpl level_props.
    simpl js_instanceof_Error. cbv iota.
    replace (js_String (js_get (JsError m ps) "message")) with m
      by reflexivity.
    destruct (js_truthy (js_get (JsError m ps) "code"));
      destruct (js_truthy (js_get (JsError m ps) "syscall"));
      destruct (js_truthy (js_get (JsError m ps) "hostname"));
      simpl app; rewrite <- ?app_assoc; simpl app; reflexivity.
Qed.

Lemma causeChain_truthy (top : FaultLevel) (causes : list FaultLevel) :
  js_truthy (causeChain top causes) = true.
Proof. destruct causes; reflexivity. Qed.

(** The walk over a chain of [Error]s, from any depth. *)
Lemma extractError_causeChain (causes : list FaultLevel) :
  forall (top : FaultLevel) (depth : nat) (parts : list string),
    Forall noCauseProp (top :: causes) ->
    extractError (causeChain top causes) depth parts =
    parts ++ chainLines depth (firstn (4 - depth) (top :: causes)).
Proof.
  induction causes as [|c rest IH]; intros top depth parts Hno;
    destruct (Nat.ltb 3 depth) eqn:Hd.
  - apply Nat.ltb_lt in Hd. rewrite extractError_capped by exact Hd.
    replace (4 - depth) with 0 by lia. cbn [firstn chainLines].
    now rewrite app_nil_r.
  - apply Nat.ltb_ge in Hd. destruct top as [m ps].
    inversion Hno as [|? ? Htop _]; subst.
    unfold noCauseProp in Htop. cbn [level_props] in Htop.
    destruct (4 - depth) as [|n] eqn:Hn; [lia |].
    cbn [causeChain firstn chainLines]. unfold levelError.
    cbn [level_message level_props].
    rewrite extractError_Error by exact Hd. cbv zeta.
    unfold js_in, js_get. rewrite Htop. cbn [String.eqb Ascii.eqb Bool.eqb orb andb].
    destruct n; cbn [firstn chainLines]; now rewrite app_nil_r.
  - apply Nat.ltb_lt in Hd. rewrite extractError_capped by exact Hd.
    replace (4 - depth) with 0 by lia. cbn [firstn chainLines].
    now rewrite app_nil_r.
  - apply Nat.ltb_ge in Hd. destruct top as [m ps].
    inversion Hno as [|? ? Htop Hrest]; subst.
    unfold noCauseProp in Htop. cbn [level_props] in Htop.
    destruct (4 - depth) as [|n] eqn:Hn; [lia |].
    cbn [causeChain level_message level_props firstn chainLines].
    rewrite extractError_Error by exact Hd. cbv zeta.
    rewrite levelLines_beside_cause.
    assert (Hin : js_in "cause"
                    (JsError m (ps ++ [("cause", causeChain c rest)])) = true).
    { unfold js_in. rewrite js_lookup_app, Htop. reflexivity. }
    assert (Hget : js_get (JsError m (ps ++ [("cause", causeChain c rest)]))
                     "cause" = causeChain c rest).
    { unfold js_get. rewrite js_lookup_app, Htop. reflexivity. }
    rewrite Hin, Hget, causeChain_truthy. cbn [andb].
    rewrite (IH c (depth + 1)) by exact Hrest.
    replace (4 - (depth + 1)) with n by lia.
    replace (depth + 1) with (S depth) by lia.
    now rewrite <- app_assoc.
Qed.

(** C9.  For a thrown [Error] whose cause chain is [top :: causes] (each
    level an [Error] with a message and its own diagnostic properties),
    [formatErrorDetails] visits the levels at depths 0 to 3 only, in
    order, and joins their lines: per level the message (prefixed by
    "Caused by: " below the top), then the code, syscall and host:port
    lines, each exactly when its field is truthy.  Levels deeper than 3
    contribute nothing, and a level without diagnostic fields
    contributes its message alone. *)
Theorem C9_formatErrorDetails_unwraps_to_depth_3 :
  forall (top : FaultLevel) (causes : list FaultLevel) (verbose : bool),
    Forall noCauseProp (top :: causes) ->
    extractError (causeChain top causes) 0 [] =
      chainLines 0 (firstn 4 (top :: causes))
    /\ formatErrorDetails (causeChain top causes) verbose =
         String.concat (newline ++ "  ")
                       (chainLines 0 (firstn 4 (top :: causes))).
Proof.
  intros top causes verbose Hno.
  assert (H : extractError (causeChain top causes) 0 [] =
              chainLines 0 (firstn 4 (top :: causes))).
  { rewrite extractError_causeChain by exact Hno. reflexivity. }
  split; [exact H |]. unfold formatErrorDetails. now rewrite H.
Qed.

(** ** One prompt *)

(** Case analysis along a run: each SDK call either returns or throws,
    each test goes one way or the other. *)
Ltac run_step :=
  match goal with
  | |- context [session_create ?c ?t ?s] =>
      destruct (session_create c t s) as [[?resp | ?err] ?sdk'] eqn:?Hcreate
  | |- context [session_prompt ?c ?i ?t ?s] =>
      destruct (session_prompt c i t s) as [[?resp | ?err] ?sdk'] eqn:?Hprompt
  | |- context [session_delete ?c ?i ?s] =>
      destruct (session_delete c i s) as [[?resp | ?err] ?sdk'] eqn:?Hdelete
  | |- context [if ?b then _ else _] => destruct b eqn:?Htest
  end.

Ltac run_cases := repeat (run_step; cbn [sdk calls]).

Lemma attempted_snoc (trace : list SdkCall) (c : SdkCall) :
  attempted (trace ++ [c]) =
  attempted trace + (if isSessionCreate c then 1 else 0).
Proof.
  unfold attempted. rewrite filter_app, length_app. simpl.
  destruct (isSessionCreate c); reflexivity.
Qed.

(** [runPrompt] always returns, and asks for exactly one session. *)
Lemma runPrompt_returns (client : OpencodeClient) (prompt : string)
    (options : RunOptions) (w : World) :
  exists r w',
    runPrompt client prompt options w = (Normal r, w')
    /\ attempted (calls w') = S (attempted (calls w)).
Proof.
  unfold runPrompt, runPrompt_try, runPrompt_finally, await.
  run_cases; do 2 eexists; (split; [reflexivity |]);
    cbn [calls]; rewrite ?attempted_snoc; cbn [isSessionCreate]; lia.
Qed.

Ltac unfold_run :=
  unfold runPrompt, runPrompt_try, runPrompt_catch, runPrompt_finally, await,
    sessionOpened, sessionIdOf, sessionTitle in *.

(** C10.  Whatever the client does, [runPrompt] returns a result, and in
    it [success] is [true] exactly when [errorType] is the "none"
    constant. *)
Theorem C10_success_iff_errorType_none :
  forall (client : OpencodeClient) (prompt : string) (options : RunOptions)
         (w : World),
  exists (r : RunPromptResult) (w' : World),
    runPrompt client prompt options w = (Normal r, w')
    /\ (success r = true <-> errorType r = ERROR_TYPE_NONE).
Proof.
  intros client prompt options w. unfold_run.
  run_cases; do 2 eexists; (split; [reflexivity |]);
    cbn [success errorType]; split; intros H; try reflexivity;
    discriminate H.
Qed.

(** C5.  The classification made by [runPrompt]:
    (a) session creation answered with an error payload, or without
        data: an SDK error whose text is "Session creation failed: "
        followed by the serialized error, or by a fixed message when
        there is no error payload;
    (b) a session opened and the prompt answered with an error payload:
        a tool error whose text is the serialized error payload;
    (c) a fault thrown by the session-creation call, or by the prompt
        call: an SDK error (its text is the formatted fault). *)
Theorem C5_outcome_classification :
  forall (client : OpencodeClient) (prompt : string) (options : RunOptions)
         (w : World),
    (forall sessionResponse s1,
        session_create client (sessionTitle prompt) (sdk w)
          = (Normal sessionResponse, s1) ->
        js_truthy (js_get (JsObj sessionResponse) "error") = true
        \/ js_truthy (js_get (JsObj sessionResponse) "data") = false ->
        exists w',
          runPrompt client prompt options w =
          (Normal {| success := false;
                     errorType := ERROR_TYPE_SDK;
                     resultText :=
                       "Session creation failed: "
                       ++ (if js_truthy (js_get (JsObj sessionResponse) "error")
                           then JSON_stringify
                                  (js_get (JsObj sessionResponse) "error")
                           else "Failed to create session") |}, w'))
    /\ (forall sessionResponse s1 promptResponse s2,
           session_create client (sessionTitle prompt) (sdk w)
             = (Normal sessionResponse, s1) ->
           sessionOpened sessionResponse ->
           session_prompt client (sessionIdOf sessionResponse) prompt s1
             = (Normal promptResponse, s2) ->
           js_truthy (js_get (JsObj promptResponse) "error") = true ->
           exists w',
             runPrompt client prompt options w =
             (Normal {| success := false;
                        errorType := ERROR_TYPE_TOOL;
                        resultText :=
                          JSON_stringify
                            (js_get (JsObj promptResponse) "error") |}, w'))
    /\ (forall err s1,
           session_create client (sessionTitle prompt) (sdk w)
             = (Throw err, s1) ->
           exists w',
             runPrompt client prompt options w =
             (Normal {| success := false;
                        errorType := ERROR_TYPE_SDK;
                        resultText :=
                          "SDK Error: "
                          ++ formatErrorDetails err (verbose options) |}, w'))
    /\ (forall sessionResponse s1 err s2,
           session_create client (sessionTitle prompt) (sdk w)
             = (Normal sessionResponse, s1) ->
           sessionOpened sessionResponse ->
           session_prompt client (sessionIdOf sessionResponse) prompt s1
             = (Throw err, s2) ->
           exists w',
             runPrompt client prompt options w =
             (Normal {| success := false;
                        errorType := ERROR_TYPE_SDK;
                        resultText :=
                          "SDK Error: "
                          ++ formatErrorDetails err (verbose options) |}, w')).
Proof.
  intros client prompt options w. repeat split.
  - intros resp s1 Hcreate Hbad. unfold_run. rewrite Hcreate.
    assert (Hcond : js_truthy (js_get (JsObj resp) "error")
                    || negb (js_truthy (js_get (JsObj resp) "data")) = true).
    { destruct Hbad as [H | H]; rewrite H; [reflexivity |].
      apply orb_true_r. }
    rewrite Hcond. cbn [js_truthy]. eexists. reflexivity.
  - intros resp s1 presp s2 Hcreate [Herr Hdata] Hprompt Hperr.
    unfold_run. rewrite Hcreate, Herr, Hdata. cbn [orb negb sdk].
    rewrite Hprompt, Hperr. run_cases; eexists; reflexivity.
  - intros err s1 Hcreate. unfold_run. rewrite Hcreate.
    cbn [js_truthy]. eexists. reflexivity.
  - intros resp s1 err s2 Hcreate [Herr Hdata] Hprompt.
    unfold_run. rewrite Hcreate, Herr, Hdata. cbn [orb negb sdk].
    rewrite Hprompt. run_cases; eexists; reflexivity.
Qed.

(** C6.  When session creation opened a session (its reply carries data
    with a truthy id, stored in [sessionId]), then whatever the prompt
    call does (an answer, an error payload, a thrown fault) the last
    call of [runPrompt] is the deletion of that session; and the result
    is the same for every behaviour of the deletion, a throwing one
    included: replacing [session.delete] by any [delete] changes neither
    the result nor the calls made. *)
Theorem C6_session_deleted_on_every_path :
  forall (client : OpencodeClient) (prompt : string) (options : RunOptions)
         (w : World) (sessionResponse : SdkResponse) (s1 : SdkState)
         (delete : JsValue -> SdkOp SdkResponse),
    session_create client (sessionTitle prompt) (sdk w)
      = (Normal sessionResponse, s1) ->
    sessionOpened sessionResponse ->
    js_truthy (sessionIdOf sessionResponse) = true ->
    exists (r : RunPromptResult) (w1 w2 : World),
      runPrompt client prompt options w = (Normal r, w1)
      /\ runPrompt (withDelete client delete) prompt options w = (Normal r, w2)
      /\ calls w1 =
           calls w ++ [CallSessionCreate (sessionTitle prompt);
                       CallSessionPrompt (sessionIdOf sessionResponse) prompt;
                       CallSessionDelete (sessionIdOf sessionResponse)]
      /\ calls w2 = calls w1.
Proof.
  intros client prompt options w resp s1 delete Hcreate [Herr Hdata] Hid.
  unfold withDelete. unfold_run. cbn [session_create session_prompt session_delete].
  rewrite Hcreate, Herr, Hdata. cbn [orb negb sdk calls].
  destruct (session_prompt client (js_get (js_get (JsObj resp) "data") "id")
              prompt s1) as [[presp | err] s2];
    [destruct (js_truthy (js_get (JsObj presp) "error")) |];
    rewrite Hid; cbn [sdk calls];
    destruct (session_delete client
                (js_get (js_get (JsObj resp) "data") "id") s2)
      as [[? | ?] ?];
    destruct (delete (js_get (js_get (JsObj resp) "data") "id") s2)
      as [[? | ?] ?];
    do 3 eexists; cbn [calls]; rewrite <- !app_assoc; cbn [app];
    repeat split; reflexivity.
Qed.

(** The probe written as a chain of tests is a search of [resultFields]
    for the first field that is there and truthy. *)
Lemma extractResultText_probe (promptResponse : SdkResponse) :
  let data := js_get (JsObj promptResponse) "data" in
  extractResultText promptResponse =
  match firstNonEmptyField data with
  | Some k => js_String (js_get data k)
  | None =>
      if js_truthy data && js_typeof_object data
      then JSON_stringify data
      else JSON_stringify (JsObj promptResponse)
  end.
Proof.
  cbv zeta. unfold extractResultText, firstNonEmptyField, resultFields,
    nonEmptyField.
  set (data := js_get (JsObj promptResponse) "data").
  cbn [find].
  destruct (js_truthy data && js_typeof_object data) eqn:Hobj.
  - destruct (js_in "text" data && js_truthy (js_get data "text"));
      [reflexivity |].
    destruct (js_in "content" data && js_truthy (js_get data "content"));
      [reflexivity |].
    destruct (js_in "message" data && js_truthy (js_get data "message"));
      [reflexivity |].
    destruct (js_in "result" data && js_truthy (js_get data "result"));
      reflexivity.
  - assert (Hin : forall k, js_in k data = false).
    { intros k. destruct data; try reflexivity; discriminate Hobj. }
    rewrite !Hin. reflexivity.
Qed.

(** C8.  After a prompt submission that succeeded (a session opened, the
    prompt call answered without an error payload), the result is a
    success whose text is found by probing the response body [data] for
    [text], [content], [message], [result] in that order: the first
    field that is there with a truthy (non-empty) value wins and is
    converted to a string.  When no such field exists and the body is an
    object, the text is the serialization of the body; when the body is
    not an object, it is the serialization of the whole response. *)
Theorem C8_result_text_priority :
  forall (client : OpencodeClient) (prompt : string) (options : RunOptions)
         (w : World) (sessionResponse : SdkResponse) (s1 : SdkState)
         (promptResponse : SdkResponse) (s2 : SdkState),
    session_create client (sessionTitle prompt) (sdk w)
      = (Normal sessionResponse, s1) ->
    sessionOpened sessionResponse ->
    session_prompt client (sessionIdOf sessionResponse) prompt s1
      = (Normal promptResponse, s2) ->
    js_truthy (js_get (JsObj promptResponse) "error") = false ->
    let data := js_get (JsObj promptResponse) "data" in
    exists (r : RunPromptResult) (w' : World),
      runPrompt client prompt options w = (Normal r, w')
      /\ success r = true
      /\ errorType r = ERROR_TYPE_NONE
      /\ resultText r =
           match firstNonEmptyField data with
           | Some k => js_String (js_get data k)
           | None =>
               if js_truthy data && js_typeof_object data
               then JSON_stringify data
               else JSON_stringify (JsObj promptResponse)
           end.
Proof.
  intros client prompt options w resp s1 presp s2 Hcreate [Herr Hdata]
    Hprompt Hperr data.
  pose proof (extractResultText_probe presp) as Hprobe. cbv zeta in Hprobe.
  fold data in Hprobe. rewrite <- Hprobe. clear Hprobe.
  unfold_run. rewrite Hcreate, Herr, Hdata. cbn [orb negb sdk].
  rewrite Hprompt, Hperr.
  run_cases; do 2 eexists; repeat split; reflexivity.
Qed.

(** ** The loop *)

(** The options [promptLoop] hands to [runPrompt]. *)
Abbreviation promptOptions options := {| verbose := verbose options |}.

(** What one iteration does with the result of its prompt. *)
Lemma promptLoop_cons (client : OpencodeClient) (options : SequentialRunOptions)
    (entry : PromptEntry) (rest : list PromptEntry) (counts : RunSummary)
    (w w1 : World) (result : RunPromptResult) :
  runPrompt client (content entry) (promptOptions options) w
    = (Normal result, w1) ->
  promptLoop client options (entry :: rest) counts w =
  match errorType result with
  | ERROR_TYPE_SDK =>
      if stopOnSdkError options
      then (Normal (LoopBreak, incSdkErrors counts), w1)
      else promptLoop client options rest (incSdkErrors counts) w1
  | ERROR_TYPE_TOOL =>
      if stopOnToolError options
      then (Normal (LoopBreak, incToolErrors counts), w1)
      else promptLoop client options rest
             (incCompleted (incToolErrors counts)) w1
  | ERROR_TYPE_NONE =>
      promptLoop client options rest (incCompleted counts) w1
  end.
Proof.
  intros Hrun. cbn [promptLoop]. rewrite Hrun.
  destruct (errorType result); reflexivity.
Qed.

(** A loop over [pre ++ post] that is not stopped within [pre] goes on
    with [post]. *)
Lemma promptLoop_app (client : OpencodeClient) (options : SequentialRunOptions)
    (pre post : list PromptEntry) :
  forall (counts counts1 : RunSummary) (w w1 : World),
    promptLoop client options pre counts w = (Normal (LoopDone, counts1), w1) ->
    promptLoop client options (pre ++ post) counts w =
    promptLoop client options post counts1 w1.
Proof.
  induction pre as [|entry pre IH]; intros counts counts1 w w1 Hpre.
  - cbn in Hpre. injection Hpre as <- <-. reflexivity.
  - destruct (runPrompt_returns client (content entry) (promptOptions options) w)
      as (r & w' & Hrun & _).
    rewrite <- app_comm_cons.
    rewrite (promptLoop_cons _ _ _ _ _ _ _ _ Hrun) in Hpre.
    rewrite (promptLoop_cons _ _ _ _ _ _ _ _ Hrun).
    destruct (errorType r);
      [ | destruct (stopOnToolError options)
        | destruct (stopOnSdkError options) ];
      try discriminate Hpre; now apply IH.
Qed.

(** A loop that ran to its end attempted every prompt. *)
Lemma promptLoop_done_attempted (client : OpencodeClient)
    (options : SequentialRunOptions) (prompts : list PromptEntry) :
  forall (counts counts1 : RunSummary) (w w1 : World),
    promptLoop client options prompts counts w
      = (Normal (LoopDone, counts1), w1) ->
    attempted (calls w1) = attempted (calls w) + length prompts.
Proof.
  induction prompts as [|entry rest IH]; intros counts counts1 w w1 Hloop.
  - cbn in Hloop. injection Hloop as _ <-. cbn. lia.
  - destruct (runPrompt_returns client (content entry) (promptOptions options) w)
      as (r & w' & Hrun & Hatt).
    rewrite (promptLoop_cons _ _ _ _ _ _ _ _ Hrun) in Hloop.
    destruct (errorType r);
      [ | destruct (stopOnToolError options)
        | destruct (stopOnSdkError options) ];
      try discriminate Hloop; apply IH in Hloop; cbn [length]; lia.
Qed.

(** The loop always returns; its counters account for the prompts it
    attempted, which are at most the prompts given, and all of them
    when no [break] was taken. *)
Lemma promptLoop_accounts (client : OpencodeClient)
    (options : SequentialRunOptions) (prompts : list PromptEntry) :
  forall (counts : RunSummary) (w : World),
  exists (exit : LoopExit) (counts' : RunSummary) (w' : World) (n : nat),
    promptLoop client options prompts counts w = (Normal (exit, counts'), w')
    /\ attempted (calls w') = attempted (calls w) + n
    /\ attemptsCounted options counts' = attemptsCounted options counts + n
    /\ n <= length prompts
    /\ (exit = LoopDone -> n = length prompts).
Proof.
  induction prompts as [|entry rest IH]; intros counts w.
  - exists LoopDone, counts, w, 0. cbn. repeat split; lia.
  - destruct (runPrompt_returns client (content entry) (promptOptions options) w)
      as (r & w1 & Hrun & Hatt).
    rewrite (promptLoop_cons _ _ _ _ _ _ _ _ Hrun).
    destruct (errorType r).
    + destruct (IH (incCompleted counts) w1)
        as (exit & c' & w' & n & Hloop & Hn & Hc & Hle & Hdone).
      exists exit, c', w', (S n). rewrite Hloop, Hn, Hc, Hatt.
      unfold attemptsCounted; cbn.
      repeat split; try lia. intros H; specialize (Hdone H); lia.
    + destruct (stopOnToolError options) eqn:Hstop.
      * exists LoopBreak, (incToolErrors counts), w1, 1.
        rewrite Hatt. unfold attemptsCounted; rewrite Hstop; cbn.
        repeat split; try lia. discriminate.
      * destruct (IH (incCompleted (incToolErrors counts)) w1)
          as (exit & c' & w' & n & Hloop & Hn & Hc & Hle & Hdone).
        exists exit, c', w', (S n). rewrite Hloop, Hn, Hatt.
        revert Hc. unfold attemptsCounted; rewrite Hstop; cbn. intros Hc.
        repeat split; try lia. intros H; specialize (Hdone H); lia.
    + destruct (stopOnSdkError options) eqn:Hstop.
      * exists LoopBreak, (incSdkErrors counts), w1, 1.
        rewrite Hatt. unfold attemptsCounted; cbn.
        repeat split; try lia. discriminate.
      * destruct (IH (incSdkErrors counts) w1)
          as (exit & c' & w' & n & Hloop & Hn & Hc & Hle & Hdone).
        exists exit, c', w', (S n). rewrite Hloop, Hn, Hc, Hatt.
        unfold attemptsCounted; cbn.
        repeat split; try lia. intros H; specialize (Hdone H); lia.
Qed.

(** Once the instance is made, the run returns the counters of its
    loop; closing the instance attempts no prompt. *)
Lemma runPromptsSequential_created
    (createOpencode : Config -> SdkOp Opencode) (prompts : list PromptEntry)
    (options : SequentialRunOptions) (w : World) (opencode : Opencode)
    (s : SdkState) (exit : LoopExit) (counts : RunSummary) (w' : World) :
  createOpencode (buildConfig options) (sdk w) = (Normal opencode, s) ->
  promptLoop (client opencode) options prompts noCounts (created options w s)
    = (Normal (exit, counts), w') ->
  exists wEnd,
    runPromptsSequential createOpencode prompts options w
      = (Normal counts, wEnd)
    /\ attempted (calls wEnd) = attempted (calls w').
Proof.
  intros Hcreate Hloop. unfold runPromptsSequential, await.
  rewrite Hcreate. fold (created options w s). rewrite Hloop.
  unfold closeOpencode, await.
  destruct (close opencode) as [closeFn |].
  - destruct (closeFn (sdk w')) as [[? | ?] ?]; eexists;
      (split; [reflexivity |]); cbn [calls]; rewrite attempted_snoc;
      cbn; lia.
  - eexists. split; reflexivity.
Qed.

Lemma attempted_created (options : SequentialRunOptions) (w : World)
    (s : SdkState) :
  attempted (calls (created options w s)) = attempted (calls w).
Proof. unfold created. cbn [calls]. rewrite attempted_snoc. cbn. lia. Qed.

(** C2.  With [stopOnSdkError] set, a loop that reaches a prompt whose
    result is an SDK error ends there by [break]: [sdkErrors] is
    incremented, [completed] is not, and no later prompt is attempted
    (the world is the one that prompt left).  In particular, for three
    prompts of which the first succeeds and the second ends in an SDK
    error, the run returns completed 1, toolErrors 0, sdkErrors 1, only
    two prompts are attempted, and the exit code is 1. *)
Theorem C2_stop_at_first_sdk_error :
  forall (options : SequentialRunOptions),
    stopOnSdkError options = true ->
    (forall (client : OpencodeClient) (pre : list PromptEntry)
            (p : PromptEntry) (post : list PromptEntry)
            (counts counts1 : RunSummary) (w w1 w2 : World)
            (r : RunPromptResult),
        promptLoop client options pre counts w
          = (Normal (LoopDone, counts1), w1) ->
        runPrompt client (content p) (promptOptions options) w1
          = (Normal r, w2) ->
        errorType r = ERROR_TYPE_SDK ->
        promptLoop client options (pre ++ p :: post) counts w
          = (Normal (LoopBreak, incSdkErrors counts1), w2)
        /\ completed (incSdkErrors counts1) = completed counts1
        /\ attempted (calls w2) = attempted (calls w) + S (length pre))
    /\ (forall (createOpencode : Config -> SdkOp Opencode)
               (opencode : Opencode) (s : SdkState) (p1 p2 p3 : PromptEntry)
               (w w1 w2 : World) (r1 r2 : RunPromptResult),
           createOpencode (buildConfig options) (sdk w)
             = (Normal opencode, s) ->
           runPrompt (client opencode) (content p1) (promptOptions options)
                     (created options w s) = (Normal r1, w1) ->
           errorType r1 = ERROR_TYPE_NONE ->
           runPrompt (client opencode) (content p2) (promptOptions options) w1
             = (Normal r2, w2) ->
           errorType r2 = ERROR_TYPE_SDK ->
           exists wEnd,
             runPromptsSequential createOpencode [p1; p2; p3] options w
               = (Normal {| completed := 1; toolErrors := 0; sdkErrors := 1 |},
                  wEnd)
             /\ attempted (calls wEnd) = attempted (calls w) + 2
             /\ exitCode {| completed := 1; toolErrors := 0; sdkErrors := 1 |}
                = 1).
Proof.
  intros options Hstop. split.
  - intros client pre p post counts counts1 w w1 w2 r Hpre Hrun Hsdk.
    split; [| split].
    + rewrite (promptLoop_app client options pre (p :: post) _ _ _ _ Hpre).
      rewrite (promptLoop_cons _ _ _ _ _ _ _ _ Hrun), Hsdk, Hstop.
      reflexivity.
    + reflexivity.
    + apply promptLoop_done_attempted in Hpre.
      destruct (runPrompt_returns client (content p) (promptOptions options) w1)
        as (r' & w' & Hrun' & Hatt).
      rewrite Hrun in Hrun'. injection Hrun' as _ <-. lia.
  - intros createOpencode opencode s p1 p2 p3 w w1 w2 r1 r2
      Hcreate Hrun1 Hnone Hrun2 Hsdk.
    assert (Hloop :
      promptLoop (client opencode) options [p1; p2; p3] noCounts
                 (created options w s)
      = (Normal (LoopBreak,
                 {| completed := 1; toolErrors := 0; sdkErrors := 1 |}), w2)).
    { rewrite (promptLoop_cons _ _ _ _ _ _ _ _ Hrun1), Hnone.
      rewrite (promptLoop_cons _ _ _ _ _ _ _ _ Hrun2), Hsdk, Hstop.
      reflexivity. }
    destruct (runPromptsSequential_created createOpencode _ _ _ _ _ _ _ _
                Hcreate Hloop)
      as (wEnd & Hrun & Hatt).
    exists wEnd. split; [exact Hrun |]. split; [| reflexivity].
    rewrite Hatt.
    destruct (runPrompt_returns (client opencode) (content p1)
                (promptOptions options) (created options w s))
      as (r1' & w1' & Hrun1' & Hatt1).
    rewrite Hrun1 in Hrun1'. injection Hrun1' as _ <-.
    destruct (runPrompt_returns (client opencode) (content p2)
                (promptOptions options) w1)
      as (r2' & w2' & Hrun2' & Hatt2).
    rewrite Hrun2 in Hrun2'. injection Hrun2' as _ <-.
    rewrite Hatt2, Hatt1, attempted_created. lia.
Qed.

(** C3.  With [stopOnToolError] unset, a loop that reaches a prompt
    whose result is a tool error increments both [toolErrors] and
    [completed] and goes on with the prompts that follow.  In
    particular, for three prompts of which the second ends in a tool
    error and the others succeed, the run returns completed 3,
    toolErrors 1, sdkErrors 0, all three prompts are attempted, and the
    exit code is 2. *)
Theorem C3_tool_error_counts_and_continues :
  forall (options : SequentialRunOptions),
    stopOnToolError options = false ->
    (forall (client : OpencodeClient) (pre : list PromptEntry)
            (p : PromptEntry) (post : list PromptEntry)
            (counts counts1 : RunSummary) (w w1 w2 : World)
            (r : RunPromptResult),
        promptLoop client options pre counts w
          = (Normal (LoopDone, counts1), w1) ->
        runPrompt client (content p) (promptOptions options) w1
          = (Normal r, w2) ->
        errorType r = ERROR_TYPE_TOOL ->
        promptLoop client options (pre ++ p :: post) counts w
          = promptLoop client options post
              {| completed := S (completed counts1);
                 toolErrors := S (toolErrors counts1);
                 sdkErrors := sdkErrors counts1 |} w2)
    /\ (forall (createOpencode : Config -> SdkOp Opencode)
               (opencode : Opencode) (s : SdkState) (p1 p2 p3 : PromptEntry)
               (w w1 w2 w3 : World) (r1 r2 r3 : RunPromptResult),
           createOpencode (buildConfig options) (sdk w)
             = (Normal opencode, s) ->
           runPrompt (client opencode) (content p1) (promptOptions options)
                     (created options w s) = (Normal r1, w1) ->
           errorType r1 = ERROR_TYPE_NONE ->
           runPrompt (client opencode) (content p2) (promptOptions options) w1
             = (Normal r2, w2) ->
           errorType r2 = ERROR_TYPE_TOOL ->
           runPrompt (client opencode) (content p3) (promptOptions options) w2
             = (Normal r3, w3) ->
           errorType r3 = ERROR_TYPE_NONE ->
           exists wEnd,
             runPromptsSequential createOpencode [p1; p2; p3] options w
               = (Normal {| completed := 3; toolErrors := 1; sdkErrors := 0 |},
                  wEnd)
             /\ attempted (calls wEnd) = attempted (calls w) + 3
             /\ exitCode {| completed := 3; toolErrors := 1; sdkErrors := 0 |}
                = 2).
Proof.
  intros options Hstop. split.
  - intros client pre p post counts counts1 w w1 w2 r Hpre Hrun Htool.
    rewrite (promptLoop_app client options pre (p :: post) _ _ _ _ Hpre).
    rewrite (promptLoop_cons _ _ _ _ _ _ _ _ Hrun), Htool, Hstop.
    reflexivity.
  - intros createOpencode opencode s p1 p2 p3 w w1 w2 w3 r1 r2 r3
      Hcreate Hrun1 Hnone1 Hrun2 Htool Hrun3 Hnone3.
    assert (Hloop :
      promptLoop (client opencode) options [p1; p2; p3] noCounts
                 (created options w s)
      = (Normal (LoopDone,
                 {| completed := 3; toolErrors := 1; sdkErrors := 0 |}), w3)).
    { rewrite (promptLoop_cons _ _ _ _ _ _ _ _ Hrun1), Hnone1.
      rewrite (promptLoop_cons _ _ _ _ _ _ _ _ Hrun2), Htool, Hstop.
      rewrite (promptLoop_cons _ _ _ _ _ _ _ _ Hrun3), Hnone3.
      reflexivity. }
    destruct (runPromptsSequential_created createOpencode _ _ _ _ _ _ _ _
                Hcreate Hloop) as (wEnd & Hrun & Hatt).
    exists wEnd. split; [exact Hrun |]. split; [| reflexivity].
    rewrite Hatt, (promptLoop_done_attempted _ _ _ _ _ _ _ Hloop).
    rewrite attempted_created. reflexivity.
Qed.

(** C1 (amended).  The loop always returns.  Writing [n] for the number
    of prompts it attempted: completed + toolErrors + sdkErrors is [n]
    when [stopOnToolError] is set, and [n + toolErrors] when it is not
    (a tool error that does not stop the run is counted in both
    [completed] and [toolErrors], so then completed + sdkErrors = n).
    [n] is at most the number of prompts, equals it when the loop ended
    without a [break], and is smaller only after a [break].  The run of
    [src/cli.ts] returns the same counters once its instance is made. *)
Theorem C1_counters_account_for_attempts :
  forall (sdkClient : OpencodeClient) (prompts : list PromptEntry)
         (options : SequentialRunOptions) (w : World),
  exists (exit : LoopExit) (counts : RunSummary) (w' : World) (n : nat),
    promptLoop sdkClient options prompts noCounts w
      = (Normal (exit, counts), w')
    /\ runPromptsSequential_client sdkClient prompts options w
       = (Normal counts, w')
    /\ attempted (calls w') = attempted (calls w) + n
    /\ completed counts + toolErrors counts + sdkErrors counts
       = n + (if stopOnToolError options then 0 else toolErrors counts)
    /\ n <= length prompts
    /\ (exit = LoopDone -> n = length prompts)
    /\ (n < length prompts -> exit = LoopBreak)
    /\ (forall (createOpencode : Config -> SdkOp Opencode)
               (opencode : Opencode) (w0 : World) (s : SdkState),
           createOpencode (buildConfig options) (sdk w0)
             = (Normal opencode, s) ->
           client opencode = sdkClient ->
           w = created options w0 s ->
           exists wEnd,
             runPromptsSequential createOpencode prompts options w0
               = (Normal counts, wEnd)
             /\ attempted (calls wEnd) = attempted (calls w0) + n).
Proof.
  intros sdkClient prompts options w.
  destruct (promptLoop_accounts sdkClient options prompts noCounts w)
    as (exit & counts & w' & n & Hloop & Hn & Hc & Hle & Hdone).
  exists exit, counts, w', n.
  unfold attemptsCounted in Hc.
  cbn [completed sdkErrors toolErrors noCounts] in Hc.
  repeat split.
  - exact Hloop.
  - unfold runPromptsSequential_client. now rewrite Hloop.
  - exact Hn.
  - destruct (stopOnToolError options); lia.
  - exact Hle.
  - exact Hdone.
  - intros Hlt. destruct exit; [| reflexivity].
    specialize (Hdone eq_refl). lia.
  - intros createOpencode opencode w0 s Hcreate <- ->.
    destruct (runPromptsSequential_created createOpencode _ _ _ _ _ _ _ _
                Hcreate Hloop) as (wEnd & Hrun & Hatt).
    exists wEnd. split; [exact Hrun |].
    rewrite Hatt, Hn, attempted_created. reflexivity.
Qed.

(** C7.  When [createOpencode] throws, the run returns at once: its
    only call is the failed construction, no prompt is attempted, and
    the summary reports every prompt as an SDK error (so the exit code
    is 1 for a non-empty prompt list). *)
Theorem C7_client_construction_failure :
  forall (createOpencode : Config -> SdkOp Opencode)
         (prompts : list PromptEntry) (options : SequentialRunOptions)
         (w : World) (error : JsValue) (s : SdkState),
    createOpencode (buildConfig options) (sdk w) = (Throw error, s) ->
    runPromptsSequential createOpencode prompts options w
    = (Normal {| completed := 0;
                 toolErrors := 0;
                 sdkErrors := length prompts |},
       created options w s)
    /\ attempted (calls (created options w s)) = attempted (calls w)
    /\ (prompts <> [] ->
        exitCode {| completed := 0;
                    toolErrors := 0;
                    sdkErrors := length prompts |} = 1).
Proof.
  intros createOpencode prompts options w error s Hcreate.
  split; [| split].
  - unfold runPromptsSequential, await. rewrite Hcreate. reflexivity.
  - apply attempted_created.
  - intros Hne. destruct prompts; [contradiction | reflexivity].
Qed.

(** C4.  The exit code is 1 as soon as [sdkErrors] is positive, whatever
    [toolErrors] is; otherwise 2 when [toolErrors] is positive;
    otherwise 0. *)
Theorem C4_exit_code :
  forall (summary : RunSummary),
    (0 < sdkErrors summary -> exitCode summary = 1)
    /\ (sdkErrors summary = 0 -> 0 < toolErrors summary ->
        exitCode summary = 2)
    /\ (sdkErrors summary = 0 -> toolErrors summary = 0 ->
        exitCode summary = 0).
Proof.
  intros [c t s]. unfold exitCode. cbn [sdkErrors toolErrors].
  repeat split.
  - intros H. destruct s; [lia | reflexivity].
  - intros -> H. destruct t; [lia | reflexivity].
  - intros -> ->. reflexivity.
Qed.

(** ** Further properties of the fault formatter *)

(** A visited value that is not an [Error] contributes one line. *)
Lemma extractError_value (e : JsValue) (depth : nat) (parts : list string) :
  js_instanceof_Error e = false ->
  depth <= 3 ->
  extractError e depth parts = parts ++ [faultText e].
Proof.
  intros Hne Hd. simp extractError.
  destruct (Logic.inspect (Nat.ltb 3 depth)) as [b Hb].
  destruct b; simp extractError.
  - apply Nat.ltb_lt in Hb. lia.
  - rewrite Hne. unfold faultText, push.
    destruct (negb match e with JsNull => true | _ => false end
              && js_typeof_object e); reflexivity.
Qed.

(** X1.  A thrown value that is not an [Error] is reported on one line:
    its serialization when it is an object other than [null], its
    string conversion otherwise.  So a client that rejects with the
    string [msg] when a session is requested gives the result text
    "SDK Error: " followed by [msg]. *)
Theorem X1_fault_that_is_not_an_Error :
  forall (e : JsValue) (verbose : bool),
    js_instanceof_Error e = false ->
    formatErrorDetails e verbose = faultText e
    /\ (forall (client : OpencodeClient) (prompt msg : string)
               (options : RunOptions) (w : World) (s1 : SdkState),
           e = JsStr msg ->
           session_create client (sessionTitle prompt) (sdk w)
             = (Throw e, s1) ->
           exists w',
             runPrompt client prompt options w =
             (Normal {| success := false;
                        errorType := ERROR_TYPE_SDK;
                        resultText := "SDK Error: " ++ msg |}, w')).
Proof.
  intros e verbose Hne.
  assert (Hfmt : forall v, formatErrorDetails e v = faultText e).
  { intros v. unfold formatErrorDetails.
    rewrite extractError_value by (exact Hne || lia).
    cbn. reflexivity. }
  split; [apply Hfmt |].
  intros client prompt msg options w s1 -> Hcreate.
  unfold_run. rewrite Hcreate. cbn [js_truthy].
  eexists. unfold runPrompt_catch. rewrite Hfmt. reflexivity.
Qed.

(** The walk over a chain whose innermost level has a [cause] that is
    not an [Error]. *)
Lemma extractError_causeChainTo (innermost : JsValue)
    (causes : list FaultLevel) :
  js_instanceof_Error innermost = false ->
  forall (top : FaultLevel) (depth : nat) (parts : list string),
    Forall noCauseProp (top :: causes) ->
    extractError (causeChainTo innermost top causes) depth parts =
    parts ++ chainLines depth (firstn (4 - depth) (top :: causes))
    ++ (if js_truthy innermost && Nat.ltb (depth + length causes) 3
        then [faultText innermost] else []).
Proof.
  intros Hne.
  induction causes as [|c rest IH]; intros top depth parts Hno;
    destruct (Nat.ltb 3 depth) eqn:Hd.
  - apply Nat.ltb_lt in Hd. rewrite extractError_capped by exact Hd.
    replace (4 - depth) with 0 by lia. cbn [firstn chainLines length].
    replace (Nat.ltb (depth + 0) 3) with false
      by (symmetry; apply Nat.ltb_ge; lia).
    rewrite andb_false_r. now rewrite !app_nil_r.
  - apply Nat.ltb_ge in Hd. destruct top as [m ps].
    inversion Hno as [|? ? Htop _]; subst.
    unfold noCauseProp in Htop. cbn [level_props] in Htop.
    destruct (4 - depth) as [|n] eqn:Hn; [lia |].
    cbn [causeChainTo level_message level_props firstn chainLines length].
    rewrite extractError_Error by exact Hd. cbv zeta.
    rewrite levelLines_beside_cause.
    assert (Hin : js_in "cause" (JsError m (ps ++ [("cause", innermost)]))
                  = true).
    { unfold js_in. rewrite js_lookup_app, Htop. reflexivity. }
    assert (Hget : js_get (JsError m (ps ++ [("cause", innermost)])) "cause"
                   = innermost).
    { unfold js_get. rewrite js_lookup_app, Htop. reflexivity. }
    rewrite Hin, Hget. cbn [andb].
    replace (firstn n []) with (@nil FaultLevel) by (destruct n; reflexivity).
    cbn [chainLines]. rewrite app_nil_r.
    destruct (js_truthy innermost); cbn [andb].
    + destruct (Nat.ltb (depth + 0) 3) eqn:Hlt.
      * apply Nat.ltb_lt in Hlt.
        rewrite extractError_value by (exact Hne || lia).
        now rewrite app_assoc.
      * apply Nat.ltb_ge in Hlt.
        rewrite extractError_capped by lia. now rewrite app_nil_r.
    + now rewrite app_nil_r.
  - apply Nat.ltb_lt in Hd. rewrite extractError_capped by exact Hd.
    replace (4 - depth) with 0 by lia. cbn [firstn chainLines].
    replace (Nat.ltb (depth + length (c :: rest)) 3) with false
      by (symmetry; apply Nat.ltb_ge; lia).
    rewrite andb_false_r. now rewrite !app_nil_r.
  - apply Nat.ltb_ge in Hd. destruct top as [m ps].
    inversion Hno as [|? ? Htop Hrest]; subst.
    unfold noCauseProp in Htop. cbn [level_props] in Htop.
    destruct (4 - depth) as [|n] eqn:Hn; [lia |].
    cbn [causeChainTo level_message level_props firstn chainLines length].
    rewrite extractError_Error by exact Hd. cbv zeta.
    rewrite levelLines_beside_cause.
    assert (Hin : js_in "cause"
                    (JsError m (ps ++ [("cause",
                                        causeChainTo innermost c rest)]))
                  = true).
    { unfold js_in. rewrite js_lookup_app, Htop. reflexivity. }
    assert (Hget : js_get (JsError m (ps ++ [("cause",
                                              causeChainTo innermost c rest)]))
                     "cause" = causeChainTo innermost c rest).
    { unfold js_get. rewrite js_lookup_app, Htop. reflexivity. }
    assert (Htruthy : js_truthy (causeChainTo innermost c rest) = true)
      by (destruct rest; reflexivity).
    rewrite Hin, Hget, Htruthy. cbn [andb].
    rewrite (IH c (depth + 1)) by exact Hrest.
    replace (4 - (depth + 1)) with n by lia.
    replace (depth + 1 + length rest) with (depth + S (length rest)) by lia.
    replace (depth + 1) with (S depth) by lia.
    now rewrite <- !app_assoc.
Qed.

(** X2.  When the innermost [Error] of a chain has a [cause] that is not
    an [Error], that cause adds one last line (its serialization or
    string conversion) provided it is truthy and lies at depth 3 or
    less; a falsy [cause] ([null], [undefined], the empty string, ...)
    is ignored. *)
Theorem X2_cause_that_is_not_an_Error :
  forall (innermost : JsValue) (top : FaultLevel) (causes : list FaultLevel),
    js_instanceof_Error innermost = false ->
    Forall noCauseProp (top :: causes) ->
    extractError (causeChainTo innermost top causes) 0 [] =
    chainLines 0 (firstn 4 (top :: causes))
    ++ (if js_truthy innermost && Nat.ltb (length causes) 3
        then [faultText innermost] else []).
Proof.
  intros innermost top causes Hne Hno.
  rewrite extractError_causeChainTo by assumption. reflexivity.
Qed.

(** ** Further properties of one prompt and of the loop *)

(** X3.  When no session comes of the request (the reply carries an error
    payload or no data, or the call throws), [runPrompt] makes no other
    call: no prompt is submitted and nothing is deleted. *)
Theorem X3_no_session_no_prompt_no_delete :
  forall (client : OpencodeClient) (prompt : string) (options : RunOptions)
         (w : World),
    (forall sessionResponse s1,
        session_create client (sessionTitle prompt) (sdk w)
          = (Normal sessionResponse, s1) ->
        js_truthy (js_get (JsObj sessionResponse) "error") = true
        \/ js_truthy (js_get (JsObj sessionResponse) "data") = false ->
        exists r,
          runPrompt client prompt options w =
          (Normal r,
           {| sdk := s1;
              calls := calls w ++ [CallSessionCreate (sessionTitle prompt)] |})
          /\ errorType r = ERROR_TYPE_SDK)
    /\ (forall err s1,
           session_create client (sessionTitle prompt) (sdk w)
             = (Throw err, s1) ->
           exists r,
             runPrompt client prompt options w =
             (Normal r,
              {| sdk := s1;
                 calls := calls w
                          ++ [CallSessionCreate (sessionTitle prompt)] |})
             /\ errorType r = ERROR_TYPE_SDK).
Proof.
  intros client prompt options w. split.
  - intros resp s1 Hcreate Hbad. unfold_run. rewrite Hcreate.
    assert (Hcond : js_truthy (js_get (JsObj resp) "error")
                    || negb (js_truthy (js_get (JsObj resp) "data")) = true).
    { destruct Hbad as [H | H]; rewrite H; [reflexivity |].
      apply orb_true_r. }
    rewrite Hcond. cbn [js_truthy]. eexists. split; reflexivity.
  - intros err s1 Hcreate. unfold_run. rewrite Hcreate.
    cbn [js_truthy]. eexists. split; reflexivity.
Qed.

(** The calls of one [runPrompt] form a block. *)
Lemma runPrompt_block (client : OpencodeClient) (prompt : string)
    (options : RunOptions) (w : World) :
  exists r w' block,
    runPrompt client prompt options w = (Normal r, w')
    /\ calls w' = calls w ++ block
    /\ sessionBlock prompt block.
Proof.
  unfold runPrompt, runPrompt_try, runPrompt_catch, runPrompt_finally, await.
  run_cases;
    try match goal with
        | H : js_truthy JsUndefined = true |- _ => discriminate H
        end;
    do 3 eexists; (split; [reflexivity |]); cbn [calls];
    rewrite <- ?app_assoc; cbn [app]; (split; [reflexivity |]);
    first [ apply BlockRefused
          | apply BlockServed; assumption
          | apply BlockUnnamed; assumption ].
Qed.



Lemma sessionBlocks_session_calls (ps : list PromptEntry)
    (trace : list SdkCall) :
  sessionBlocks ps trace ->
  ~ In CallClose trace
  /\ (forall config, ~ In (CallCreateOpencode config) trace).
Proof.
  induction 1 as [| p ps block trace Hblock _ [IHc IHo]].
  - split; [| intros config]; intros [].
  - split; [| intros config]; intros Hin; apply in_app_or in Hin;
      destruct Hin as [Hin | Hin];
      try (now apply IHc); try (now apply (IHo config));
      destruct Hblock; cbn in Hin; intuition discriminate.
Qed.

(** The calls of the loop: one block per attempted prompt. *)
Lemma promptLoop_blocks :
  forall (client : OpencodeClient) (options : SequentialRunOptions)
         (prompts : list PromptEntry) (counts : RunSummary) (w : World),
  exists (exit : LoopExit) (counts' : RunSummary) (w' : World) (n : nat)
         (trace : list SdkCall),
    promptLoop client options prompts counts w = (Normal (exit, counts'), w')
    /\ calls w' = calls w ++ trace
    /\ sessionBlocks (firstn n prompts) trace
    /\ n <= length prompts
    /\ (exit = LoopDone -> n = length prompts).
Proof.
  intros client options prompts.
  induction prompts as [|entry rest IH]; intros counts w.
  - exists LoopDone, counts, w, 0, []. cbn. rewrite app_nil_r.
    repeat split; try constructor.
  - destruct (runPrompt_block client (content entry) (promptOptions options) w)
      as (r & w1 & block & Hrun & Hcalls & Hblock).
    rewrite (promptLoop_cons _ _ _ _ _ _ _ _ Hrun).
    assert (Hgo : forall c,
      exists exit counts' w' n trace,
        promptLoop client options rest c w1 = (Normal (exit, counts'), w')
        /\ calls w' = calls w ++ trace
        /\ sessionBlocks (firstn n (entry :: rest)) trace
        /\ n <= length (entry :: rest)
        /\ (exit = LoopDone -> n = length (entry :: rest))).
    { intros c.
      destruct (IH c w1)
        as (exit & c' & w' & n & trace & Hloop & Ht & Hb & Hle & Hdone).
      exists exit, c', w', (S n), (block ++ trace).
      rewrite Hloop, Ht, Hcalls, app_assoc. cbn [firstn length].
      repeat split; try lia.
      - now constructor.
      - intros H. specialize (Hdone H). lia. }
    assert (Hstop : forall c,
      exists exit counts' w' n trace,
        ((Normal (LoopBreak, c), w1)
           : Completion (LoopExit * RunSummary) * World)
        = (Normal (exit, counts'), w')
        /\ calls w' = calls w ++ trace
        /\ sessionBlocks (firstn n (entry :: rest)) trace
        /\ n <= length (entry :: rest)
        /\ (exit = LoopDone -> n = length (entry :: rest))).
    { intros c. exists LoopBreak, c, w1, 1, (block ++ []).
      rewrite app_nil_r. cbn [firstn length].
      repeat split; try lia; try exact Hcalls.
      - rewrite <- (app_nil_r block). constructor; [exact Hblock | constructor].
      - discriminate. }
    destruct (errorType r);
      [ | destruct (stopOnToolError options)
        | destruct (stopOnSdkError options) ];
      first [apply Hgo | apply Hstop].
Qed.


(** The counters only grow, and a loop that counted no error ran to its
    end with every prompt completed. *)
Lemma promptLoop_grows (client : OpencodeClient)
    (options : SequentialRunOptions) (prompts : list PromptEntry) :
  forall (counts counts' : RunSummary) (w w' : World) (exit : LoopExit),
    promptLoop client options prompts counts w = (Normal (exit, counts'), w') ->
    completed counts <= completed counts'
    /\ toolErrors counts <= toolErrors counts'
    /\ sdkErrors counts <= sdkErrors counts'
    /\ (toolErrors counts' = toolErrors counts ->
        sdkErrors counts' = sdkErrors counts ->
        exit = LoopDone
        /\ completed counts' = completed counts + length prompts).
Proof.
  induction prompts as [|entry rest IH]; intros c c' w w' exit Hloop.
  - cbn in Hloop. injection Hloop as <- <- <-. cbn. repeat split; lia.
  - destruct (runPrompt_returns client (content entry) (promptOptions options) w)
      as (r & w1 & Hrun & _).
    rewrite (promptLoop_cons _ _ _ _ _ _ _ _ Hrun) in Hloop.
    destruct (errorType r);
      [ | destruct (stopOnToolError options)
        | destruct (stopOnSdkError options) ];
      try (injection Hloop as <- <- <-; cbn;
           split; [lia | split; [lia | split; [lia |]]];
           intros H1 H2; exfalso; lia);
      apply IH in Hloop; cbn in Hloop; cbn [length];
      destruct Hloop as (Hc & Ht & Hs & Hclean);
      (split; [lia | split; [lia | split; [lia |]]]);
      intros H1 H2; try (exfalso; lia);
      destruct Hclean as [He Hn]; try lia; split; [exact He | lia].
Qed.

(** The run of [src/cli.ts] always returns a summary. *)
Lemma runPromptsSequential_returns
    (createOpencode : Config -> SdkOp Opencode) (prompts : list PromptEntry)
    (options : SequentialRunOptions) (w : World) :
  exists counts w',
    runPromptsSequential createOpencode prompts options w
    = (Normal counts, w')
    /\ ((exists error s,
            createOpencode (buildConfig options) (sdk w) = (Throw error, s)
            /\ counts = {| completed := 0;
                           toolErrors := 0;
                           sdkErrors := length prompts |}
            /\ w' = created options w s)
        \/ (exists opencode s exit wLoop,
               createOpencode (buildConfig options) (sdk w)
                 = (Normal opencode, s)
               /\ promptLoop (client opencode) options prompts noCounts
                             (created options w s)
                  = (Normal (exit, counts), wLoop)
               /\ attempted (calls w') = attempted (calls wLoop))).
Proof.
  destruct (createOpencode (buildConfig options) (sdk w))
    as [[opencode | error] s] eqn:Hcreate.
  - destruct (promptLoop_accounts (client opencode) options prompts noCounts
                (created options w s))
      as (exit & counts & wLoop & n & Hloop & _).
    destruct (runPromptsSequential_created createOpencode _ _ _ _ _ _ _ _
                Hcreate Hloop) as (wEnd & Hrun & Hatt).
    exists counts, wEnd. split; [exact Hrun |]. right.
    exists opencode, s, exit, wLoop. repeat split; assumption.
  - exists {| completed := 0; toolErrors := 0; sdkErrors := length prompts |},
      (created options w s).
    split.
    + unfold runPromptsSequential, await. rewrite Hcreate. reflexivity.
    + left. exists error, s. repeat split.
Qed.

(** A summary gives exit code 0 exactly when it counts every prompt as
    completed and no error. *)
Lemma exitCode_zero_all_completed
    (createOpencode : Config -> SdkOp Opencode) (prompts : list PromptEntry)
    (options : SequentialRunOptions) (w w' : World) (counts : RunSummary) :
  runPromptsSequential createOpencode prompts options w
    = (Normal counts, w') ->
  (exitCode counts = 0 <-> counts = allCompleted prompts)
  /\ (exitCode counts = 0 ->
      attempted (calls w') = attempted (calls w) + length prompts).
Proof.
  intros Hrun.
  destruct (runPromptsSequential_returns createOpencode prompts options w)
    as (counts0 & w0 & Hrun0 & Hcase).
  rewrite Hrun in Hrun0. injection Hrun0 as <- <-.
  assert (Hzero : exitCode counts = 0 ->
                  sdkErrors counts = 0 /\ toolErrors counts = 0).
  { unfold exitCode.
    destruct (sdkErrors counts); [| discriminate].
    destruct (toolErrors counts); [| discriminate]. auto. }
  destruct Hcase as [(error & s & _ & -> & ->)
                    | (opencode & s & exit & wLoop & _ & Hloop & Hatt)].
  - unfold allCompleted. destruct prompts as [|p ps].
    + split; [split |]; intros _;
        [reflexivity | reflexivity | rewrite attempted_created; cbn; lia].
    + cbn. split; [split |]; intros H; discriminate H.
  - pose proof (promptLoop_grows _ _ _ _ _ _ _ _ Hloop) as (_ & _ & _ & Hclean).
    cbn [noCounts completed toolErrors sdkErrors] in Hclean.
    split; [split |].
    + intros H. destruct (Hzero H) as [Hs Ht].
      destruct (Hclean Ht Hs) as [_ Hc].
      destruct counts as [c t e]. cbn in *. subst. reflexivity.
    + intros ->. reflexivity.
    + intros H. destruct (Hzero H) as [Hs Ht].
      destruct (Hclean Ht Hs) as [-> _].
      rewrite Hatt, (promptLoop_done_attempted _ _ _ _ _ _ _ Hloop).
      now rewrite attempted_created.
Qed.


(** How the stop flags bound the error counters, for any start whose
    stopping counters are still at zero. *)
Lemma promptLoop_break (client : OpencodeClient)
    (options : SequentialRunOptions) (prompts : list PromptEntry) :
  forall (counts counts' : RunSummary) (w w' : World) (exit : LoopExit),
    (stopOnSdkError options = true -> sdkErrors counts = 0) ->
    (stopOnToolError options = true -> toolErrors counts = 0) ->
    promptLoop client options prompts counts w = (Normal (exit, counts'), w') ->
    (stopOnSdkError options = true -> sdkErrors counts' <= 1)
    /\ (stopOnToolError options = true -> toolErrors counts' <= 1)
    /\ (exit = LoopBreak <->
        (stopOnSdkError options = true /\ sdkErrors counts' = 1)
        \/ (stopOnToolError options = true /\ toolErrors counts' = 1)).
Proof.
  induction prompts as [|entry rest IH]; intros c c' w w' exit Hs Ht Hloop.
  - cbn in Hloop. injection Hloop as <- <- <-.
    split; [| split; [| split]].
    + intros H. rewrite (Hs H). lia.
    + intros H. rewrite (Ht H). lia.
    + intros H. discriminate H.
    + intros [[H1 H2] | [H1 H2]];
        [rewrite (Hs H1) in H2 | rewrite (Ht H1) in H2]; discriminate.
  - destruct (runPrompt_returns client (content entry) (promptOptions options) w)
      as (r & w1 & Hrun & _).
    rewrite (promptLoop_cons _ _ _ _ _ _ _ _ Hrun) in Hloop.
    destruct (errorType r).
    + apply IH in Hloop; assumption.
    + destruct (stopOnToolError options) eqn:Etool.
      * injection Hloop as <- <- <-. cbn. rewrite (Ht eq_refl).
        split; [| split; [| split]].
        -- intros H. rewrite (Hs H). lia.
        -- intros _. lia.
        -- intros _. right. split; reflexivity.
        -- intros _. reflexivity.
      * apply IH in Hloop; [exact Hloop | exact Hs | discriminate].
    + destruct (stopOnSdkError options) eqn:Esdk.
      * injection Hloop as <- <- <-. cbn. rewrite (Hs eq_refl).
        split; [| split; [| split]].
        -- intros _. lia.
        -- intros H. rewrite (Ht H). lia.
        -- intros _. left. split; reflexivity.
        -- intros _. reflexivity.
      * apply IH in Hloop; [exact Hloop | discriminate | exact Ht].
Qed.

(** Each attempted prompt counts at most one completion and at most one
    error. *)
Lemma promptLoop_bounds (client : OpencodeClient)
    (options : SequentialRunOptions) (prompts : list PromptEntry) :
  forall (counts counts' : RunSummary) (w w' : World) (exit : LoopExit),
    promptLoop client options prompts counts w = (Normal (exit, counts'), w') ->
    exists n,
      attempted (calls w') = attempted (calls w) + n
      /\ n <= length prompts
      /\ completed counts' <= completed counts + n
      /\ toolErrors counts' + sdkErrors counts'
         <= toolErrors counts + sdkErrors counts + n.
Proof.
  induction prompts as [|entry rest IH]; intros c c' w w' exit Hloop.
  - cbn in Hloop. injection Hloop as <- <- <-. exists 0. cbn. lia.
  - destruct (runPrompt_returns client (content entry) (promptOptions options) w)
      as (r & w1 & Hrun & Hatt).
    rewrite (promptLoop_cons _ _ _ _ _ _ _ _ Hrun) in Hloop.
    destruct (errorType r);
      [ | destruct (stopOnToolError options)
        | destruct (stopOnSdkError options) ];
      try (injection Hloop as <- <- <-; exists 1; cbn; lia);
      apply IH in Hloop; destruct Hloop as (n & Hn & Hle & Hc & He);
      exists (S n); cbn in *; lia.
Qed.

(** X6.  The error counters of a loop started at zero.  Each attempted
    prompt adds at most one error, so toolErrors + sdkErrors never
    exceeds the prompts attempted, nor does completed.  With
    [stopOnSdkError] set sdkErrors is at most 1, with [stopOnToolError]
    set toolErrors is at most 1, and the loop was left by [break]
    exactly when a counter whose flag is set reached 1. *)
Theorem X6_stop_flags_cap_the_error_counters :
  forall (client : OpencodeClient) (options : SequentialRunOptions)
         (prompts : list PromptEntry) (w w' : World) (exit : LoopExit)
         (counts : RunSummary),
    promptLoop client options prompts noCounts w = (Normal (exit, counts), w') ->
    (exists n,
        attempted (calls w') = attempted (calls w) + n
        /\ n <= length prompts
        /\ completed counts <= n
        /\ toolErrors counts + sdkErrors counts <= n)
    /\ (stopOnSdkError options = true -> sdkErrors counts <= 1)
    /\ (stopOnToolError options = true -> toolErrors counts <= 1)
    /\ (exit = LoopBreak <->
        (stopOnSdkError options = true /\ sdkErrors counts = 1)
        \/ (stopOnToolError options = true /\ toolErrors counts = 1)).
Proof.
  intros client options prompts w w' exit counts Hloop. split.
  - destruct (promptLoop_bounds _ _ _ _ _ _ _ _ Hloop)
      as (n & Hn & Hle & Hc & He).
    exists n. cbn in Hc, He. repeat split; lia.
  - apply (promptLoop_break client options prompts noCounts counts w w' exit
             (fun _ => eq_refl) (fun _ => eq_refl) Hloop).
Qed.

(** X7.  With neither stop flag set the loop never breaks: every prompt
    is attempted, whatever the results, and completed + sdkErrors is the
    number of prompts. *)
Theorem X7_without_stop_flags_every_prompt_runs :
  forall (client : OpencodeClient) (options : SequentialRunOptions)
         (prompts : list PromptEntry) (w : World),
    stopOnSdkError options = false ->
    stopOnToolError options = false ->
    exists (counts : RunSummary) (w' : World),
      promptLoop client options prompts noCounts w
        = (Normal (LoopDone, counts), w')
      /\ attempted (calls w') = attempted (calls w) + length prompts
      /\ completed counts + sdkErrors counts = length prompts
      /\ toolErrors counts <= completed counts.
Proof.
  intros client options prompts w Hsdk Htool.
  destruct (promptLoop_accounts client options prompts noCounts w)
    as (exit & counts & w' & n & Hloop & Hn & Hc & Hle & Hdone).
  pose proof (promptLoop_break client options prompts noCounts counts w w'
                exit (fun _ => eq_refl) (fun _ => eq_refl) Hloop)
    as (_ & _ & Hbreak).
  assert (Hexit : exit = LoopDone).
  { destruct exit; [reflexivity |]. exfalso.
    destruct (proj1 Hbreak eq_refl) as [[H _] | [H _]]; congruence. }
  subst exit. specialize (Hdone eq_refl). subst n.
  exists counts, w'. split; [exact Hloop |]. split; [exact Hn |].
  unfold attemptsCounted in Hc. rewrite Htool in Hc. cbn in Hc.
  split; [lia |].
  clear - Hloop Htool.
  assert (Hinv : forall ps c c' w w' e,
    promptLoop client options ps c w = (Normal (e, c'), w') ->
    toolErrors c <= completed c -> toolErrors c' <= completed c').
  { induction ps as [|entry rest IH]; intros c c' w0 w1 e H Hle.
    - cbn in H. injection H as <- <- <-. exact Hle.
    - destruct (runPrompt_returns client (content entry)
                  (promptOptions options) w0) as (r & w2 & Hrun & _).
      rewrite (promptLoop_cons _ _ _ _ _ _ _ _ Hrun) in H.
      rewrite Htool in H.
      destruct (errorType r); [ | | destruct (stopOnSdkError options)];
        try (injection H as <- <- <-; cbn; lia);
        apply IH in H; try exact H; cbn; lia. }
  apply (Hinv _ _ _ _ _ _ Hloop). cbn. lia.
Qed.

(** X8.  When the instance made by [createOpencode] has a [close]
    function, the run calls it exactly once, as its last call, after the
    session blocks of the loop; the summary does not depend on what
    [close] does, a throwing [close] included. *)
Theorem X8_instance_closed_once_after_the_loop :
  forall (createOpencode : Config -> SdkOp Opencode)
         (prompts : list PromptEntry) (options : SequentialRunOptions)
         (w : World) (opencode : Opencode) (s : SdkState)
         (closeFn : SdkOp JsValue),
    createOpencode (buildConfig options) (sdk w) = (Normal opencode, s) ->
    close opencode = Some closeFn ->
    exists (counts : RunSummary) (wEnd : World) (n : nat)
           (trace : list SdkCall),
      runPromptsSequential createOpencode prompts options w
        = (Normal counts, wEnd)
      /\ calls wEnd =
           calls w ++ [CallCreateOpencode (buildConfig options)]
           ++ trace ++ [CallClose]
      /\ sessionBlocks (firstn n prompts) trace
      /\ ~ In CallClose trace
      /\ (forall (createOpencode' : Config -> SdkOp Opencode)
                 (closeFn' : SdkOp JsValue),
             createOpencode' (buildConfig options) (sdk w)
               = (Normal {| client := client opencode;
                            close := Some closeFn' |}, s) ->
             exists wEnd',
               runPromptsSequential createOpencode' prompts options w
                 = (Normal counts, wEnd')
               /\ calls wEnd' = calls wEnd).
Proof.
  intros createOpencode prompts options w opencode s closeFn Hcreate Hclose.
  destruct (promptLoop_blocks (client opencode) options prompts noCounts
              (created options w s))
    as (exit & counts & wLoop & n & trace & Hloop & Ht & Hb & _).
  assert (Hrun : forall create' oc' fn',
    create' (buildConfig options) (sdk w) = (Normal oc', s) ->
    client oc' = client opencode -> close oc' = Some fn' ->
    exists wEnd,
      runPromptsSequential create' prompts options w = (Normal counts, wEnd)
      /\ calls wEnd =
           calls w ++ [CallCreateOpencode (buildConfig options)]
           ++ trace ++ [CallClose]).
  { intros create' oc' fn' Hc Hcl Hfn.
    unfold runPromptsSequential, await. rewrite Hc.
    fold (created options w s). rewrite Hcl, Hloop.
    unfold closeOpencode, await. rewrite Hfn.
    destruct (fn' (sdk wLoop)) as [[? | ?] ?]; eexists;
      (split; [reflexivity |]); cbn [calls]; rewrite Ht;
      unfold created; cbn [calls]; now rewrite <- !app_assoc. }
  destruct (Hrun createOpencode opencode closeFn Hcreate eq_refl Hclose)
    as (wEnd & Hend & Hcalls).
  exists counts, wEnd, n, trace.
  split; [exact Hend |]. split; [exact Hcalls |]. split; [exact Hb |].
  split; [apply (sessionBlocks_session_calls _ _ Hb) |].
  intros createOpencode' closeFn' Hcreate'.
  destruct (Hrun createOpencode' _ closeFn' Hcreate' eq_refl eq_refl)
    as (wEnd' & Hend' & Hcalls').
  exists wEnd'. split; [exact Hend' |]. now rewrite Hcalls, Hcalls'.
Qed.

(** ** Prompt sources and [main] *)

Context {node : NodeHost}.

Lemma filterFiles_filter (dirpath : string) (entries : list string) :
  forall files,
    filterFiles dirpath entries = Normal files ->
    files = filter (isRegularFile dirpath) entries.
Proof.
  induction entries as [|entry rest IH]; intros files H; cbn in H.
  - injection H as <-. reflexivity.
  - cbn [filter]. unfold isRegularFile at 1.
    destruct (statSync (resolve [dirpath; entry])) as [stat | e];
      [| discriminate H].
    destruct (filterFiles dirpath rest) as [files' | e]; [| discriminate H].
    injection H as <-. rewrite <- (IH files' eq_refl).
    destruct (isFile stat); reflexivity.
Qed.

Lemma loadFiles_filter (dirpath : string) (sortedFiles : list string) :
  forall acc prompts,
    loadFiles dirpath sortedFiles acc = Normal prompts ->
    exists loaded,
      prompts = acc ++ loaded
      /\ map name loaded = filter (hasPrompt dirpath) sortedFiles
      /\ Forall (fun p =>
                   content p <> ""
                   /\ loadPromptFromFile (resolve [dirpath; name p])
                      = Normal (content p)) loaded.
Proof.
  induction sortedFiles as [|file rest IH]; intros acc prompts H; cbn in H.
  - injection H as <-. exists []. rewrite app_nil_r.
    repeat split. constructor.
  - cbn [filter]. unfold hasPrompt at 1.
    destruct (loadPromptFromFile (resolve [dirpath; file])) as [text | e] eqn:Hload;
      [| discriminate H].
    destruct (String.eqb text "") eqn:Hempty; cbn [negb].
    + apply IH in H. exact H.
    + apply IH in H. destruct H as (loaded & -> & Hnames & Hall).
      exists ({| name := file; content := text |} :: loaded).
      rewrite <- app_assoc. cbn [app map name]. rewrite Hnames.
      repeat split. constructor; [| exact Hall]. cbn [name content].
      split; [| exact Hload].
      intros ->. discriminate Hempty.
Qed.

(** X9.  The prompts loaded from a directory: their names are the
    entries that are regular files, in the order [orderBy] puts them,
    without those whose trimmed text is empty; every loaded prompt has a
    non-empty content, which is the trimmed text of its file. *)
Theorem X9_directory_prompts :
  forall (dirpath : string) (prompts : list PromptEntry),
    loadPromptsFromDirectory dirpath = Normal prompts ->
    exists entries,
      readdirSync dirpath = Normal entries
      /\ map name prompts =
           filter (hasPrompt dirpath)
                  (orderBy (filter (isRegularFile dirpath) entries))
      /\ Forall (fun p =>
                   content p <> ""
                   /\ loadPromptFromFile (resolve [dirpath; name p])
                      = Normal (content p)) prompts.
Proof.
  intros dirpath prompts H. unfold loadPromptsFromDirectory in H.
  destruct (readdirSync dirpath) as [entries | e]; [| discriminate H].
  destruct (filterFiles dirpath entries) as [files | e] eqn:Hfiles;
    [| discriminate H].
  cbv zeta in H. apply loadFiles_filter in H.
  destruct H as (loaded & -> & Hnames & Hall).
  exists entries. split; [reflexivity |].
  rewrite <- (filterFiles_filter _ _ _ Hfiles). cbn [app].
  split; assumption.
Qed.

Lemma filterFiles_throws (dirpath entry : string) (err : JsValue)
    (entries : list string) :
  In entry entries ->
  statSync (resolve [dirpath; entry]) = Throw err ->
  exists err', filterFiles dirpath entries = Throw err'.
Proof.
  induction entries as [|e rest IH]; intros Hin Hstat; [destruct Hin |].
  cbn [filterFiles].
  destruct (statSync (resolve [dirpath; e])) as [stat | e0] eqn:He;
    [| eexists; reflexivity].
  destruct Hin as [-> | Hin]; [congruence |].
  destruct (IH Hin Hstat) as (err' & ->). eexists; reflexivity.
Qed.

(** X10.  One entry of the directory that [statSync] cannot read makes
    the whole directory load throw, whatever the other entries are; in
    [main] that fault is not caught before [main().catch]: the process
    exits with 1 and no call is made to the SDK. *)
Theorem X10_unreadable_entry_fails_the_directory :
  forall (createOpencode : Config -> SdkOp Opencode) (opts : Opts.t)
         (args : list string) (w : World) (dir entry : string)
         (stat : Stats) (entries : list string) (err : JsValue),
    truthyString (Opts.dir opts) = Some dir ->
    statSync (resolve [dir]) = Normal stat ->
    isDirectory stat = true ->
    readdirSync (resolve [dir]) = Normal entries ->
    In entry entries ->
    statSync (resolve [resolve [dir]; entry]) = Throw err ->
    (exists err', loadPromptsFromDirectory (resolve [dir]) = Throw err')
    /\ main createOpencode opts args w = (Exited 1, w).
Proof.
  intros createOpencode opts args w dir entry stat entries err
    Hdir Hstat Hisdir Hread Hin Hentry.
  assert (Hload : exists err',
             loadPromptsFromDirectory (resolve [dir]) = Throw err').
  { unfold loadPromptsFromDirectory. rewrite Hread.
    destruct (filterFiles_throws _ _ _ _ Hin Hentry) as (err' & ->).
    eexists; reflexivity. }
  split; [exact Hload |].
  destruct Hload as (err' & Hload).
  unfold main, collectPrompts. rewrite Hdir. cbv zeta.
  rewrite Hstat, Hisdir. cbn [negb]. rewrite Hload. reflexivity.
Qed.

Lemma decimal_read (n : nat) :
  option_map Nat.of_uint (NilZero.uint_of_string (decimal n)) = Some n.
Proof.
  unfold decimal. pose proof (DecimalNat.Unsigned.of_to n) as Hof.
  destruct (Nat.to_uint n) as [| d | d | d | d | d | d | d | d | d | d] eqn:E;
    try (rewrite NilZero.usu by discriminate; cbn [option_map];
         now rewrite Hof).
  cbn in Hof. subst n. reflexivity.
Qed.

Lemma decimal_injective (a b : nat) : decimal a = decimal b -> a = b.
Proof.
  intros H. pose proof (decimal_read a) as Ha. rewrite H, decimal_read in Ha.
  now injection Ha.
Qed.

Lemma NoDup_map_injective (A B : Type) (f : A -> B) (l : list A) :
  (forall x y, f x = f y -> x = y) -> NoDup l -> NoDup (map f l).
Proof.
  intros Hinj. induction 1 as [| x l Hx _ IH]; cbn; constructor; [| exact IH].
  intros Hin. apply in_map_iff in Hin. destruct Hin as (y & Hy & Hin).
  apply Hinj in Hy. subst y. contradiction.
Qed.

Lemma argPrompts_spec (args : list string) :
  forall i,
    map content (argPrompts i args) = args
    /\ map name (argPrompts i args) =
         map (fun k => ("prompt-" ++ decimal (S k))%string)
             (seq i (length args)).
Proof.
  induction args as [|p rest IH]; intros i; [split; reflexivity |].
  destruct (IH (S i)) as [Hc Hn]. cbn. rewrite Hc, Hn, Nat.add_1_r.
  split; reflexivity.
Qed.

(** X11.  Prompts passed as arguments (no directory, no file): there is
    one prompt per argument, in the order given, with the argument as
    its content unchanged (an empty argument is kept, unlike an empty
    file); the names are prompt-1, prompt-2, ... and no two are equal. *)
Theorem X11_argument_prompts :
  forall (opts : Opts.t) (args : list string),
    truthyString (Opts.dir opts) = None ->
    truthyString (Opts.file opts) = None ->
    args <> [] ->
    exists prompts,
      collectPrompts opts args = Collect prompts
      /\ map content prompts = args
      /\ map name prompts = argNames (length args)
      /\ NoDup (map name prompts)
      /\ prompts <> [].
Proof.
  intros opts args Hdir Hfile Hargs.
  exists (argPrompts 0 args).
  destruct (argPrompts_spec args 0) as [Hc Hn].
  split; [| split; [exact Hc | split; [exact Hn | split]]].
  - unfold collectPrompts. rewrite Hdir, Hfile.
    destruct args; [contradiction | reflexivity].
  - rewrite Hn. apply NoDup_map_injective; [| apply seq_NoDup].
    intros x y H. injection H as H.
    apply decimal_injective in H. now injection H.
  - destruct args; [contradiction | discriminate].
Qed.

(** X12.  With at least one prompt collected, [main] runs them and
    exits with the exit code of the summary: always 0, 1 or 2, and 0
    exactly when the summary counts every prompt as completed with no
    error. *)
Theorem X12_main_exit_code :
  forall (createOpencode : Config -> SdkOp Opencode) (opts : Opts.t)
         (args : list string) (w : World) (prompts : list PromptEntry),
    collectPrompts opts args = Collect prompts ->
    prompts <> [] ->
    exists (summary : RunSummary) (w' : World),
      runPromptsSequential createOpencode prompts (runOptionsOf opts) w
        = (Normal summary, w')
      /\ main createOpencode opts args w = (Exited (exitCode summary), w')
      /\ exitCode summary <= 2
      /\ (exitCode summary = 0 <-> summary = allCompleted prompts).
Proof.
  intros createOpencode opts args w prompts Hcollect Hne.
  destruct (runPromptsSequential_returns createOpencode prompts
              (runOptionsOf opts) w) as (summary & w' & Hrun & _).
  exists summary, w'. split; [exact Hrun |]. split; [| split].
  - unfold main. rewrite Hcollect.
    destruct prompts; [contradiction |]. cbn [length Nat.eqb].
    now rewrite Hrun.
  - unfold exitCode.
    destruct (Nat.ltb 0 (sdkErrors summary)); [lia |].
    destruct (Nat.ltb 0 (toolErrors summary)); lia.
  - apply (exitCode_zero_all_completed _ _ _ _ _ _ Hrun).
Qed.

(** X13.  [main] calls the SDK only when it has collected at least one
    prompt.  A directory path that cannot be read or is no directory, a
    file path that cannot be read, and a file whose trimmed text is
    empty all end the process with exit code 1 and no SDK call; with no
    directory, no file and no argument the process ends in the help. *)
Theorem X13_nothing_to_run :
  forall (createOpencode : Config -> SdkOp Opencode) (opts : Opts.t)
         (args : list string) (w : World),
    (forall e w',
        main createOpencode opts args w = (e, w') ->
        calls w' <> calls w ->
        exists prompts,
          collectPrompts opts args = Collect prompts /\ prompts <> [])
    /\ (forall dir,
           truthyString (Opts.dir opts) = Some dir ->
           (forall err, statSync (resolve [dir]) = Throw err ->
                        main createOpencode opts args w = (Exited 1, w))
           /\ (forall stat, statSync (resolve [dir]) = Normal stat ->
                            isDirectory stat = false ->
                            main createOpencode opts args w = (Exited 1, w)))
    /\ (forall file,
           truthyString (Opts.dir opts) = None ->
           truthyString (Opts.file opts) = Some file ->
           (forall err, statSync (resolve [file]) = Throw err ->
                        main createOpencode opts args w = (Exited 1, w))
           /\ (forall stat text,
                  statSync (resolve [file]) = Normal stat ->
                  readFileSync (resolve [file]) = Normal text ->
                  trim text = "" ->
                  main createOpencode opts args w = (Exited 1, w)))
    /\ (truthyString (Opts.dir opts) = None ->
        truthyString (Opts.file opts) = None ->
        args = [] ->
        main createOpencode opts args w = (HelpShown, w)).
Proof.
  intros createOpencode opts args w. split; [| split; [| split]].
  - intros e w' Hmain Hcalls. unfold main in Hmain.
    destruct (collectPrompts opts args) as [prompts | e0 | err].
    + exists prompts. split; [reflexivity |]. intros ->.
      cbn in Hmain. injection Hmain as _ <-. now apply Hcalls.
    + injection Hmain as _ <-. now contradiction Hcalls.
    + injection Hmain as _ <-. now contradiction Hcalls.
  - intros dir Hdir. split.
    + intros err Hstat. unfold main, collectPrompts.
      rewrite Hdir. cbv zeta. now rewrite Hstat.
    + intros stat Hstat Hnot. unfold main, collectPrompts.
      rewrite Hdir. cbv zeta. now rewrite Hstat, Hnot.
  - intros file Hdir Hfile. split.
    + intros err Hstat. unfold main, collectPrompts.
      rewrite Hdir, Hfile. cbv zeta. now rewrite Hstat.
    + intros stat text Hstat Hread Htrim. unfold main, collectPrompts.
      rewrite Hdir, Hfile. cbv zeta. rewrite Hstat.
      unfold loadPromptFromFile. rewrite Hread, Htrim. reflexivity.
  - intros Hdir Hfile ->. unfold main, collectPrompts.
    now rewrite Hdir, Hfile.
Qed.

End Properties.

(** * Instances on the scripted server *)

Import Sample.

Lemma C9_formatErrorDetails_witness :
  Forall noCauseProp (topFault :: deepFault)
  /\ extractError (causeChain topFault deepFault) 0 [] =
       ["fetch failed";
        "Caused by: connect failed"; "  Code: ECONNREFUSED";
        "  Syscall: connect";
        "Caused by: lookup failed"; "  Host: opencode.local:4096";
        "Caused by: socket closed"].
Proof.
  assert (H : Forall noCauseProp (topFault :: deepFault))
    by (repeat constructor).
  split; [exact H |].
  exact (proj1 (C9_formatErrorDetails_unwraps_to_depth_3
                  topFault deepFault false H)).
Defined.

Lemma C4_exit_code_witness :
  exitCode {| completed := 0; toolErrors := 7; sdkErrors := 1 |} = 1
  /\ exitCode {| completed := 3; toolErrors := 1; sdkErrors := 0 |} = 2
  /\ exitCode {| completed := 3; toolErrors := 0; sdkErrors := 0 |} = 0.
Proof.
  split; [| split].
  - apply (C4_exit_code
             {| completed := 0; toolErrors := 7; sdkErrors := 1 |}).
    cbn; lia.
  - apply (C4_exit_code
             {| completed := 3; toolErrors := 1; sdkErrors := 0 |});
      cbn; lia.
  - apply (C4_exit_code
             {| completed := 3; toolErrors := 0; sdkErrors := 0 |});
      reflexivity.
Defined.

Lemma C5_outcome_classification_witness :
  (exists w',
      runPrompt (scripted false) "no quota" {| verbose := false |} start =
      (Normal {| success := false;
                 errorType := ERROR_TYPE_SDK;
                 resultText :=
                   "Session creation failed: "
                   ++ stringify (JsObj [("name", JsStr "QuotaExceeded")]) |},
       w'))
  /\ (exists w',
         runPrompt (scripted false) "run the failing tests"
                   {| verbose := false |} start =
         (Normal {| success := false;
                    errorType := ERROR_TYPE_TOOL;
                    resultText :=
                      stringify (js_get (JsObj toolFailureReply) "error") |},
          w'))
  /\ (exists w',
         runPrompt (scripted false) "offline" {| verbose := false |} start =
         (Normal {| success := false;
                    errorType := ERROR_TYPE_SDK;
                    resultText :=
                      "SDK Error: " ++ formatErrorDetails refused false |},
          w'))
  /\ (exists w',
         runPrompt (scripted false) "crash" {| verbose := false |} start =
         (Normal {| success := false;
                    errorType := ERROR_TYPE_SDK;
                    resultText :=
                      "SDK Error: " ++ formatErrorDetails refused false |},
          w')).
Proof.
  split; [| split; [| split]].
  - apply (proj1 (C5_outcome_classification
                    (scripted false) "no quota" {| verbose := false |} start)
             quotaReply 0).
    + reflexivity.
    + left. reflexivity.
  - apply (proj1 (proj2 (C5_outcome_classification
                           (scripted false) "run the failing tests"
                           {| verbose := false |} start))
             (sessionReply 1) 1 toolFailureReply 1).
    + reflexivity.
    + split; reflexivity.
    + reflexivity.
    + reflexivity.
  - apply (proj1 (proj2 (proj2 (C5_outcome_classification
                                  (scripted false) "offline"
                                  {| verbose := false |} start)))
             refused 0).
    reflexivity.
  - apply (proj2 (proj2 (proj2 (C5_outcome_classification
                                  (scripted false) "crash"
                                  {| verbose := false |} start)))
             (sessionReply 1) 1 refused 1).
    + reflexivity.
    + split; reflexivity.
    + reflexivity.
Defined.

Lemma C6_session_deleted_witness :
  session_create (scripted false) (sessionTitle "crash") (sdk start)
    = (Normal (sessionReply 1), 1)
  /\ sessionOpened (sessionReply 1)
  /\ js_truthy (sessionIdOf (sessionReply 1)) = true
  /\ exists r w1 w2,
       runPrompt (scripted false) "crash" {| verbose := false |} start
         = (Normal r, w1)
       /\ runPrompt (withDelete (scripted false) failingDelete) "crash"
                    {| verbose := false |} start = (Normal r, w2)
       /\ calls w1 =
            calls start
            ++ [CallSessionCreate (sessionTitle "crash");
                CallSessionPrompt (sessionIdOf (sessionReply 1)) "crash";
                CallSessionDelete (sessionIdOf (sessionReply 1))]
       /\ calls w2 = calls w1.
Proof.
  assert (Hcreate :
    session_create (scripted false) (sessionTitle "crash") (sdk start)
    = (Normal (sessionReply 1), 1)) by reflexivity.
  assert (Hopen : sessionOpened (sessionReply 1)) by (split; reflexivity).
  assert (Hid : js_truthy (sessionIdOf (sessionReply 1)) = true)
    by reflexivity.
  split; [exact Hcreate |]. split; [exact Hopen |]. split; [exact Hid |].
  exact (C6_session_deleted_on_every_path
           (scripted false) "crash" {| verbose := false |} start
           (sessionReply 1) 1 failingDelete Hcreate Hopen Hid).
Defined.

Lemma C8_result_text_witness :
  exists r w',
    runPrompt (scripted false) "hello" {| verbose := false |} start
      = (Normal r, w')
    /\ success r = true
    /\ errorType r = ERROR_TYPE_NONE
    /\ resultText r = "done".
Proof.
  apply (C8_result_text_priority
           (scripted false) "hello" {| verbose := false |} start
           (sessionReply 1) 1 answerReply 1).
  - reflexivity.
  - split; reflexivity.
  - reflexivity.
  - reflexivity.
Defined.

Lemma C7_client_construction_failure_witness :
  createRefused (buildConfig defaults) (sdk start) = (Throw refused, 0)
  /\ runPromptsSequential createRefused
       [prompt "a"; prompt "b"; prompt "c"] defaults start
     = (Normal {| completed := 0; toolErrors := 0; sdkErrors := 3 |},
        created defaults start 0)
  /\ attempted (calls (created defaults start 0)) = attempted (calls start).
Proof.
  assert (Hcreate :
    createRefused (buildConfig defaults) (sdk start) = (Throw refused, 0))
    by reflexivity.
  split; [exact Hcreate |].
  destruct (C7_client_construction_failure
              createRefused [prompt "a"; prompt "b"; prompt "c"]
              defaults start refused 0 Hcreate) as (Hrun & Hatt & _).
  split; [exact Hrun | exact Hatt].
Defined.

Lemma C2_stop_at_first_sdk_error_witness :
  stopOnSdkError defaults = true
  /\ (exists wEnd,
         runPromptsSequential createScripted
           [prompt "a"; prompt "crash"; prompt "b"] defaults start
         = (Normal {| completed := 1; toolErrors := 0; sdkErrors := 1 |},
            wEnd)
         /\ attempted (calls wEnd) = attempted (calls start) + 2
         /\ exitCode {| completed := 1; toolErrors := 0; sdkErrors := 1 |}
            = 1)
  /\ (exists w2,
         promptLoop (scripted false) defaults
           ([prompt "a"] ++ prompt "crash" :: [prompt "b"]) noCounts start
         = (Normal (LoopBreak, incSdkErrors (incCompleted noCounts)), w2)
         /\ attempted (calls w2) = attempted (calls start) + 2).
Proof.
  assert (Hstop : stopOnSdkError defaults = true) by reflexivity.
  destruct (C2_stop_at_first_sdk_error defaults Hstop) as [Hgen Hscen].
  split; [exact Hstop |]. split.
  - eapply (Hscen createScripted scriptedInstance 0); reflexivity.
  - edestruct (Hgen (scripted false) [prompt "a"] (prompt "crash")
                    [prompt "b"] noCounts) as (Hloop & _ & Hatt);
      [reflexivity | reflexivity | reflexivity |].
    eexists. split; [exact Hloop | exact Hatt].
Defined.

Lemma C3_tool_error_counts_witness :
  stopOnToolError defaults = false
  /\ (exists wEnd,
         runPromptsSequential createScripted
           [prompt "a"; prompt "run the failing tests"; prompt "b"]
           defaults start
         = (Normal {| completed := 3; toolErrors := 1; sdkErrors := 0 |},
            wEnd)
         /\ attempted (calls wEnd) = attempted (calls start) + 3
         /\ exitCode {| completed := 3; toolErrors := 1; sdkErrors := 0 |}
            = 2).
Proof.
  assert (Hstop : stopOnToolError defaults = false) by reflexivity.
  destruct (C3_tool_error_counts_and_continues defaults Hstop)
    as [_ Hscen].
  split; [exact Hstop |].
  eapply (Hscen createScripted scriptedInstance 0); reflexivity.
Defined.

(** C1 as stated fails on the scripted server: of three prompts, the
    second ends in a tool error under the default policy; all three are
    attempted, and the three counters add up to four.  Both variants of
    the run return that summary. *)
Lemma C1_counterexample_sum_exceeds_attempts :
  exists counts w' w'',
    runPromptsSequential createScripted
      [prompt "a"; prompt "run the failing tests"; prompt "b"]
      defaults start = (Normal counts, w')
    /\ runPromptsSequential_client (scripted false)
         [prompt "a"; prompt "run the failing tests"; prompt "b"]
         defaults start = (Normal counts, w'')
    /\ attempted (calls start) = 0
    /\ attempted (calls w') = 3
    /\ attempted (calls w'') = 3
    /\ completed counts + toolErrors counts + sdkErrors counts = 4
    /\ completed counts + toolErrors counts + sdkErrors counts
       <> attempted (calls w').
Proof.
  do 3 eexists. split; [reflexivity |]. split; [reflexivity |].
  repeat split; try reflexivity. cbn. discriminate.
Qed.

Lemma C1_counters_account_witness :
  exists exit counts w' n,
    promptLoop (scripted false) defaults
      [prompt "a"; prompt "run the failing tests"; prompt "crash";
       prompt "b"] noCounts start = (Normal (exit, counts), w')
    /\ attempted (calls w') = attempted (calls start) + n
    /\ completed counts + toolErrors counts + sdkErrors counts
       = n + toolErrors counts
    /\ n <= 4
    /\ (n < 4 -> exit = LoopBreak).
Proof.
  destruct (C1_counters_account_for_attempts (scripted false)
              [prompt "a"; prompt "run the failing tests"; prompt "crash";
               prompt "b"] defaults start)
    as (exit & counts & w' & n & Hloop & _ & Hn & Hsum & Hle & _ & Hlt & _).
  exists exit, counts, w', n.
  split; [exact Hloop |]. split; [exact Hn |]. split; [exact Hsum |].
  split; [exact Hle | exact Hlt].
Defined.

Lemma X1_fault_that_is_not_an_Error_witness :
  js_instanceof_Error (JsStr "boom") = false
  /\ formatErrorDetails (JsStr "boom") false = "boom"
  /\ formatErrorDetails badGateway true = stringify badGateway.
Proof.
  split; [reflexivity |]. split.
  - exact (proj1 (X1_fault_that_is_not_an_Error (JsStr "boom") false
                    eq_refl)).
  - exact (proj1 (X1_fault_that_is_not_an_Error badGateway true eq_refl)).
Defined.

Lemma X2_cause_that_is_not_an_Error_witness :
  js_instanceof_Error (JsStr "timeout") = false
  /\ Forall noCauseProp [topFault]
  /\ extractError (causeChainTo (JsStr "timeout") topFault []) 0 []
     = ["fetch failed"; "timeout"]
  /\ extractError (causeChainTo JsNull topFault []) 0 [] = ["fetch failed"].
Proof.
  assert (Hno : Forall noCauseProp [topFault]) by (repeat constructor).
  split; [reflexivity |]. split; [exact Hno |]. split.
  - apply (X2_cause_that_is_not_an_Error
             (JsStr "timeout") topFault [] eq_refl Hno).
  - apply (X2_cause_that_is_not_an_Error JsNull topFault [] eq_refl Hno).
Defined.

Lemma X3_no_session_witness :
  (exists r,
      runPrompt (scripted false) "no quota" {| verbose := false |} start
      = (Normal r,
         {| sdk := 0; calls := [CallSessionCreate "Prompt: no quota..."] |})
      /\ errorType r = ERROR_TYPE_SDK)
  /\ (exists r,
         runPrompt (scripted false) "offline" {| verbose := false |} start
         = (Normal r,
            {| sdk := 0; calls := [CallSessionCreate "Prompt: offline..."] |})
         /\ errorType r = ERROR_TYPE_SDK).
Proof.
  split.
  - apply (proj1 (X3_no_session_no_prompt_no_delete
                    (scripted false) "no quota" {| verbose := false |} start)
             quotaReply 0).
    + reflexivity.
    + left. reflexivity.
  - apply (proj2 (X3_no_session_no_prompt_no_delete
                    (scripted false) "offline" {| verbose := false |} start)
             refused 0).
    reflexivity.
Defined.

Lemma X6_stop_flags_witness :
  exists exit counts w',
    promptLoop (scripted false) defaults
      [prompt "a"; prompt "run the failing tests"; prompt "crash"; prompt "b"]
      noCounts start = (Normal (exit, counts), w')
    /\ sdkErrors counts <= 1
    /\ (exit = LoopBreak <->
        (stopOnSdkError defaults = true /\ sdkErrors counts = 1)
        \/ (stopOnToolError defaults = true /\ toolErrors counts = 1)).
Proof.
  do 3 eexists. split; [reflexivity |].
  match goal with
  | |- sdkErrors ?c <= 1 /\ (?e = LoopBreak <-> _) =>
      destruct (X6_stop_flags_cap_the_error_counters
                  (scripted false) defaults
                  [prompt "a"; prompt "run the failing tests";
                   prompt "crash"; prompt "b"]
                  start _ e c eq_refl) as (_ & Hsdk & _ & Hbreak)
  end.
  split; [exact (Hsdk eq_refl) | exact Hbreak].
Defined.

Lemma X7_without_stop_flags_witness :
  stopOnSdkError keepGoing = false
  /\ stopOnToolError keepGoing = false
  /\ exists counts w',
       promptLoop (scripted false) keepGoing
         [prompt "crash"; prompt "run the failing tests"; prompt "b"]
         noCounts start = (Normal (LoopDone, counts), w')
       /\ attempted (calls w') = attempted (calls start) + 3
       /\ completed counts + sdkErrors counts = 3
       /\ toolErrors counts <= completed counts.
Proof.
  split; [reflexivity |]. split; [reflexivity |].
  exact (X7_without_stop_flags_every_prompt_runs
           (scripted false) keepGoing
           [prompt "crash"; prompt "run the failing tests"; prompt "b"]
           start eq_refl eq_refl).
Defined.

Lemma X8_instance_closed_witness :
  exists counts wEnd wEnd',
    runPromptsSequential createClosable [prompt "a"; prompt "b"] defaults start
      = (Normal counts, wEnd)
    /\ runPromptsSequential createClosableQuietly [prompt "a"; prompt "b"]
         defaults start = (Normal counts, wEnd')
    /\ calls wEnd' = calls wEnd
    /\ exists trace,
         calls wEnd =
           calls start ++ [CallCreateOpencode (buildConfig defaults)]
           ++ trace ++ [CallClose]
         /\ ~ In CallClose trace.
Proof.
  destruct (X8_instance_closed_once_after_the_loop
              createClosable [prompt "a"; prompt "b"] defaults start
              {| client := scripted false;
                 close := Some (fun s => (Throw (JsError "already closed" []),
                                          s)) |}
              0 (fun s => (Throw (JsError "already closed" []), s))
              eq_refl eq_refl)
    as (counts & wEnd & n & trace & Hrun & Hcalls & _ & Hnone & Hany).
  destruct (Hany createClosableQuietly (fun s => (Normal JsUndefined, s))
              eq_refl) as (wEnd' & Hrun' & Hsame).
  exists counts, wEnd, wEnd'.
  split; [exact Hrun |]. split; [exact Hrun' |]. split; [exact Hsame |].
  exists trace. split; [exact Hcalls | exact Hnone].
Defined.

Lemma X9_directory_prompts_witness :
  loadPromptsFromDirectory "/work/prompts"
    = Normal [{| name := "task-2"; content := "second" |};
              {| name := "task-9"; content := "ninth" |};
              {| name := "task-10"; content := "tenth" |}]
  /\ exists entries,
       readdirSync "/work/prompts" = Normal entries
       /\ ["task-2"; "task-9"; "task-10"] =
            filter (hasPrompt "/work/prompts")
                   (orderBy (filter (isRegularFile "/work/prompts") entries)).
Proof.
  assert (Hload : loadPromptsFromDirectory "/work/prompts"
    = Normal [{| name := "task-2"; content := "second" |};
              {| name := "task-9"; content := "ninth" |};
              {| name := "task-10"; content := "tenth" |}]) by reflexivity.
  split; [exact Hload |].
  destruct (X9_directory_prompts "/work/prompts" _ Hload)
    as (entries & Hread & Hnames & _).
  exists entries. split; [exact Hread | exact Hnames].
Defined.

Lemma X10_unreadable_entry_witness :
  truthyString (Opts.dir (options (Some "/work/broken") None))
    = Some "/work/broken"
  /\ In "dangling" ["ok"; "dangling"]
  /\ statSync (resolve [resolve ["/work/broken"]; "dangling"]) = Throw noEntry
  /\ main createScripted (options (Some "/work/broken") None) [] start
     = (Exited 1, start).
Proof.
  assert (Hdir : truthyString (Opts.dir (options (Some "/work/broken") None))
                 = Some "/work/broken") by reflexivity.
  assert (Hstat : statSync (resolve ["/work/broken"])
                  = Normal {| isFile := false; isDirectory := true |})
    by reflexivity.
  assert (Hread : readdirSync (resolve ["/work/broken"])
                  = Normal ["ok"; "dangling"]) by reflexivity.
  assert (Hin : In "dangling" ["ok"; "dangling"]) by (right; left; reflexivity).
  assert (Hentry : statSync (resolve [resolve ["/work/broken"]; "dangling"])
                   = Throw noEntry) by reflexivity.
  split; [exact Hdir |]. split; [exact Hin |]. split; [exact Hentry |].
  apply (X10_unreadable_entry_fails_the_directory
           createScripted (options (Some "/work/broken") None) [] start
           "/work/broken" "dangling"
           {| isFile := false; isDirectory := true |}
           ["ok"; "dangling"] noEntry
           Hdir Hstat eq_refl Hread Hin Hentry).
Defined.

Lemma X11_argument_prompts_witness :
  exists prompts,
    collectPrompts (options None None) ["first"; ""; "third"] = Collect prompts
    /\ map content prompts = ["first"; ""; "third"]
    /\ map name prompts = ["prompt-1"; "prompt-2"; "prompt-3"]
    /\ NoDup (map name prompts).
Proof.
  destruct (X11_argument_prompts (options None None) ["first"; ""; "third"]
              eq_refl eq_refl)
    as (prompts & Hcollect & Hcontent & Hnames & Hnodup & _).
  - discriminate.
  - exists prompts.
    split; [exact Hcollect |]. split; [exact Hcontent |].
    split; [exact Hnames | exact Hnodup].
Defined.

Lemma X12_main_exit_code_witness :
  exists prompts summary w',
    collectPrompts (options (Some "/work/prompts") None) [] = Collect prompts
    /\ prompts <> []
    /\ main createScripted (options (Some "/work/prompts") None) [] start
       = (Exited (exitCode summary), w')
    /\ exitCode summary = 0
    /\ summary = allCompleted prompts.
Proof.
  eexists.
  assert (Hcollect :
    collectPrompts (options (Some "/work/prompts") None) []
    = Collect [{| name := "task-2"; content := "second" |};
               {| name := "task-9"; content := "ninth" |};
               {| name := "task-10"; content := "tenth" |}]) by reflexivity.
  destruct (X12_main_exit_code createScripted
              (options (Some "/work/prompts") None) [] start _ Hcollect)
    as (summary & w' & Hrun & Hmain & _ & Hzero).
  - discriminate.
  - exists summary, w'. split; [exact Hcollect |]. split; [discriminate |].
    split; [exact Hmain |].
    assert (Hsum : summary = allCompleted
                     [{| name := "task-2"; content := "second" |};
                      {| name := "task-9"; content := "ninth" |};
                      {| name := "task-10"; content := "tenth" |}]).
    { cbv in Hrun. now injection Hrun as <- _. }
    split; [apply Hzero; exact Hsum | exact Hsum].
Defined.

Lemma X13_nothing_to_run_witness :
  main createScripted (options (Some "/work/missing") None) [] start
    = (Exited 1, start)
  /\ main createScripted (options (Some "/work/note.txt") None) [] start
     = (Exited 1, start)
  /\ main createScripted (options None (Some "/work/missing.txt")) [] start
     = (Exited 1, start)
  /\ main createScripted (options None (Some "/work/note.txt")) [] start
     = (Exited 1, start)
  /\ main createScripted (options None None) [] start = (HelpShown, start).
Proof.
  split; [| split; [| split; [| split]]].
  - apply (proj1 (proj1 (proj2 (X13_nothing_to_run createScripted
             (options (Some "/work/missing") None) [] start))
             "/work/missing" eq_refl) noEntry).
    reflexivity.
  - apply (proj2 (proj1 (proj2 (X13_nothing_to_run createScripted
             (options (Some "/work/note.txt") None) [] start))
             "/work/note.txt" eq_refl)
             {| isFile := true; isDirectory := false |});
      reflexivity.
  - apply (proj1 (proj1 (proj2 (proj2 (X13_nothing_to_run createScripted
             (options None (Some "/work/missing.txt")) [] start)))
             "/work/missing.txt" eq_refl eq_refl) noEntry).
    reflexivity.
  - apply (proj2 (proj1 (proj2 (proj2 (X13_nothing_to_run createScripted
             (options None (Some "/work/note.txt")) [] start)))
             "/work/note.txt" eq_refl eq_refl)
             {| isFile := true; isDirectory := false |} " ");
      reflexivity.
  - apply (proj2 (proj2 (proj2 (X13_nothing_to_run createScripted
             (options None None) [] start)))); reflexivity.
Defined.
